(** * SignalFx exporter: the exporter facade of [exporter/signalfxexporter/exporter.go]

    A shallow embedding of [exporter.go] and the properties of its push paths,
    of its header construction and of the way [start] wires the dimension
    client and the host-metadata syncer.

    Go values are modelled as follows.
    - [error] is [option goerror]; [None] is Go's [nil].
    - [map[string]string] is [gmap string string]; a nil map is [None].
    - [*Config] is a pointer into a heap of [Config] values, so that the
      write [config.HTTPClientSettings.Headers = nil] is seen through every
      alias of the pointer.
    - Functions of other packages (the data point client, the dimension
      client, the host-metadata syncer, the HTTP client factory, ...) are
      handlers over an external state; every call to one of them is recorded
      in a trace, which is what the theorems about call order speak of. *)

From stdpp Require Import gmap strings list fin_maps.
From Stdlib Require Import ZArith.

Local Open Scope string_scope.
Local Open Scope list_scope.
Local Open Scope nat_scope.

(** ** Go errors *)

Inductive goerror : Type :=
| errors_New (msg : string)
| fmt_Errorf_w (prefix : string) (wrapped : goerror)
| foreign_error (code : N).

(** [error] with [None] for [nil]. *)
Definition error : Type := option goerror.

(** ** Declarations of other packages

    Types that [exporter.go] only passes around, and the one constant it reads
    from [internal/splunk]. *)

Class Foreign : Type := {
  Context_ : Type;              (* context.Context *)
  Metrics : Type;               (* pmetric.Metrics *)
  Logs : Type;                  (* plog.Logs *)
  Host : Type;                  (* component.Host *)
  Logger : Type;                (* *zap.Logger *)
  TelemetrySettings : Type;     (* component.TelemetrySettings *)
  HTTPClient : Type;            (* *http.Client *)
  TLSClientSetting : Type;      (* configtls.TLSClientSetting *)
  TLSConfig : Type;             (* *tls.Config *)
  URL : Type;                   (* *url.URL *)
  MetricTranslator : Type;      (* *translation.MetricTranslator *)
  MetricsConverter : Type;      (* translation.MetricsConverter *)
  MetricFilter : Type;          (* dpfilters.MetricFilter *)
  DimensionClient : Type;       (* *dimensions.DimensionClient *)
  Syncer : Type;                (* hostmetadata.Syncer *)
  MetadataUpdate : Type;        (* *metadata.MetadataUpdate *)
  AccessTokenPassthroughConfig : Type;
  HTTPClientRest : Type;        (* fields of HTTPClientSettings not read here *)
  ConfigRest : Type;            (* fields of Config not read here *)
  ExtState : Type;              (* state of everything outside exporter.go *)
  SFxAccessTokenHeader : string (* splunk.SFxAccessTokenHeader *)
}.

(** A [*int] stored in the HTTP client settings: either the address of the
    config's own [MaxConnections] field or a pointer to another integer. *)
Inductive intptr : Type :=
| AddrOf_MaxConnections
| AddrOf_int (v : Z).

(** [time.Second], in nanoseconds. *)
Definition time_Second : Z := 1000000000.

Inductive gzipPool : Type := GzipPool_New_gzip_NewWriter_nil.

(** [newGzipPool]: a [sync.Pool] whose [New] is [gzip.NewWriter(nil)]. *)
Definition newGzipPool : gzipPool := GzipPool_New_gzip_NewWriter_nil.

Section Exporter.
Context `{F : Foreign}.

(** ** Configuration, as [exporter.go] reads and writes it *)

Record HTTPClientSettings : Type := {
  Headers : option (gmap string string);
  TLSSetting : TLSClientSetting;
  MaxIdleConns : option intptr;
  MaxIdleConnsPerHost : option intptr;
  IdleConnTimeout : option Z;
  httpRest : HTTPClientRest
}.

Record Config : Type := {
  cfgHTTPClientSettings : HTTPClientSettings;
  AccessToken : string;
  IngestTLSSettings : TLSClientSetting;
  APITLSSettings : TLSClientSetting;
  MaxConnections : Z;
  SyncHostMetadata : bool;
  AccessTokenPassthrough : AccessTokenPassthroughConfig;
  ExcludeMetrics : list MetricFilter;
  IncludeMetrics : list MetricFilter;
  NonAlphanumericDimensionChars : string;
  cfgRest : ConfigRest
}.

Definition with_HTTPClientSettings (h : HTTPClientSettings) (c : Config) : Config :=
  {| cfgHTTPClientSettings := h;
     AccessToken := AccessToken c;
     IngestTLSSettings := IngestTLSSettings c;
     APITLSSettings := APITLSSettings c;
     MaxConnections := MaxConnections c;
     SyncHostMetadata := SyncHostMetadata c;
     AccessTokenPassthrough := AccessTokenPassthrough c;
     ExcludeMetrics := ExcludeMetrics c;
     IncludeMetrics := IncludeMetrics c;
     NonAlphanumericDimensionChars := NonAlphanumericDimensionChars c;
     cfgRest := cfgRest c |}.

Definition set_Headers (v : option (gmap string string)) (c : Config) : Config :=
  let h := cfgHTTPClientSettings c in
  with_HTTPClientSettings
    {| Headers := v; TLSSetting := TLSSetting h; MaxIdleConns := MaxIdleConns h;
       MaxIdleConnsPerHost := MaxIdleConnsPerHost h;
       IdleConnTimeout := IdleConnTimeout h; httpRest := httpRest h |} c.

Definition set_TLSSetting (v : TLSClientSetting) (c : Config) : Config :=
  let h := cfgHTTPClientSettings c in
  with_HTTPClientSettings
    {| Headers := Headers h; TLSSetting := v; MaxIdleConns := MaxIdleConns h;
       MaxIdleConnsPerHost := MaxIdleConnsPerHost h;
       IdleConnTimeout := IdleConnTimeout h; httpRest := httpRest h |} c.

Definition set_MaxIdleConns (v : option intptr) (c : Config) : Config :=
  let h := cfgHTTPClientSettings c in
  with_HTTPClientSettings
    {| Headers := Headers h; TLSSetting := TLSSetting h; MaxIdleConns := v;
       MaxIdleConnsPerHost := MaxIdleConnsPerHost h;
       IdleConnTimeout := IdleConnTimeout h; httpRest := httpRest h |} c.

Definition set_MaxIdleConnsPerHost (v : option intptr) (c : Config) : Config :=
  let h := cfgHTTPClientSettings c in
  with_HTTPClientSettings
    {| Headers := Headers h; TLSSetting := TLSSetting h; MaxIdleConns := MaxIdleConns h;
       MaxIdleConnsPerHost := v;
       IdleConnTimeout := IdleConnTimeout h; httpRest := httpRest h |} c.

Definition set_IdleConnTimeout (v : option Z) (c : Config) : Config :=
  let h := cfgHTTPClientSettings c in
  with_HTTPClientSettings
    {| Headers := Headers h; TLSSetting := TLSSetting h; MaxIdleConns := MaxIdleConns h;
       MaxIdleConnsPerHost := MaxIdleConnsPerHost h;
       IdleConnTimeout := v; httpRest := httpRest h |} c.

(** [*Config]. *)
Inductive ptr : Type :=
| nilptr
| addr (l : positive).

(** ** Types of the exporter *)

Record exporterOptions : Type := {
  ingestURL : URL;
  ingestTLSSettings : TLSClientSetting;
  apiURL : URL;
  apiTLSSettings : TLSClientSetting;
  httpTimeout : Z;
  token : string;
  logDataPoints : bool;
  logDimUpdate : bool;
  metricTranslator : MetricTranslator
}.

Record CreateSettings : Type := {
  cs_Logger : Logger;
  cs_TelemetrySettings : TelemetrySettings
}.

Record sfxClientBase : Type := {
  base_ingestURL : URL;
  base_headers : gmap string string;
  base_client : HTTPClient;
  base_zippers : gzipPool
}.

Record sfxDPClient : Type := {
  dp_base : sfxClientBase;
  dp_logDataPoints : bool;
  dp_logger : Logger;
  dp_accessTokenPassthrough : AccessTokenPassthroughConfig;
  dp_converter : option MetricsConverter
}.

Record sfxEventClient : Type := {
  ev_base : sfxClientBase;
  ev_logger : Logger;
  ev_accessTokenPassthrough : AccessTokenPassthroughConfig
}.

Record DimensionClientOptions : Type := {
  Token : string;
  APIURL : URL;
  APITLSConfig : TLSConfig;
  LogUpdates : bool;
  dco_Logger : Logger;
  SendDelay : Z;
  PropertiesMaxBuffered : Z;
  dco_MetricsConverter : MetricsConverter
}.

(** The function-valued fields hold method values; each is modelled by the
    receiver it is bound to, [None] being the nil function. *)
Record signalfxExporter : Type := {
  config : ptr;
  logger : Logger;
  telemetrySettings : TelemetrySettings;
  pushMetricsData : option sfxDPClient;
  pushMetadata : option DimensionClient;
  pushLogsData : option sfxEventClient;
  hostMetadataSyncer : option Syncer;
  converter : option MetricsConverter
}.

Record signalfMetadataExporter : Type := {
  sme_pushMetadata : option DimensionClient
}.

(** ** Calls that leave [exporter.go] *)

Inductive Event : Type :=
| EvGetOptionsFromConfig (c : Config)
| EvCreateSampledLogger (l : Logger)
| EvNewMetricsConverter (l : Logger) (t : MetricTranslator)
    (excl incl : list MetricFilter) (chars : string)
| EvToClient (c : Config) (h : Host) (ts : TelemetrySettings)
| EvLoadTLSConfig (t : TLSClientSetting)
| EvNewDimensionClient (o : DimensionClientOptions)
| EvDimensionClientStart (d : DimensionClient)
| EvNewSyncer (l : Logger) (d : DimensionClient)
| EvPushMetricsData (c : sfxDPClient) (ctx : Context_) (md : Metrics)
| EvPushLogsData (c : sfxEventClient) (ctx : Context_) (ld : Logs)
| EvPushMetadata (d : DimensionClient) (m : list MetadataUpdate)
| EvSync (s : Syncer) (md : Metrics).

(** The behaviour of the called packages, as functions of the external state.
    A handler is given the config by value: the model assumes that the
    called packages leave alone the fields of the config that [exporter.go]
    reads, and it does not follow what they store in the other fields. *)
Class Runtime : Type := {
  getOptionsFromConfig_ : Config → ExtState → (option exporterOptions * error) * ExtState;
  CreateSampledLogger_ : Logger → ExtState → Logger * ExtState;
  NewMetricsConverter_ : Logger → MetricTranslator → list MetricFilter →
    list MetricFilter → string → ExtState → (option MetricsConverter * error) * ExtState;
  ToClient_ : Config → Host → TelemetrySettings → ExtState → (HTTPClient * error) * ExtState;
  LoadTLSConfig_ : TLSClientSetting → ExtState → (TLSConfig * error) * ExtState;
  NewDimensionClient_ : DimensionClientOptions → ExtState → DimensionClient * ExtState;
  DimensionClientStart_ : DimensionClient → ExtState → unit * ExtState;
  NewSyncer_ : Logger → DimensionClient → ExtState → option Syncer * ExtState;
  pushMetricsData_ : sfxDPClient → Context_ → Metrics → ExtState → (Z * error) * ExtState;
  pushLogsData_ : sfxEventClient → Context_ → Logs → ExtState → (Z * error) * ExtState;
  PushMetadata_ : DimensionClient → list MetadataUpdate → ExtState → error * ExtState;
  Sync_ : Syncer → Metrics → ExtState → unit * ExtState
}.

Context `{R : Runtime}.

(** ** State, outcomes and the monad of exporter code *)

Record World : Type := {
  heap : gmap positive Config;
  ext : ExtState;
  trace : list Event
}.

Inductive Outcome (A : Type) : Type :=
| Returned (a : A) (w : World)
| Panicked (w : World).
Arguments Returned {A} a w.
Arguments Panicked {A} w.

Definition M (A : Type) : Type := World → Outcome A.

#[global] Instance M_ret : MRet M := λ A a w, Returned a w.
#[global] Instance M_bind : MBind M := λ A B f m w,
  match m w with
  | Returned a w' => f a w'
  | Panicked w' => Panicked w'
  end.

Definition panic {A} : M A := λ w, Panicked w.

(** Read a field through a [*Config]; a nil pointer panics. *)
Definition load {A} (p : ptr) (f : Config → A) : M A := λ w,
  match p with
  | nilptr => Panicked w
  | addr l => match heap w !! l with
              | Some c => Returned (f c) w
              | None => Panicked w
              end
  end.

(** Write through a [*Config]. *)
Definition store (p : ptr) (f : Config → Config) : M unit := λ w,
  match p with
  | nilptr => Panicked w
  | addr l => match heap w !! l with
              | Some c => Returned tt {| heap := <[l := f c]> (heap w);
                                         ext := ext w; trace := trace w |}
              | None => Panicked w
              end
  end.

(** A call into another package: logged, then run on the external state. *)
Definition call {A} (e : Event) (h : ExtState → A * ExtState) : M A := λ w,
  let '(a, x) := h (ext w) in
  Returned a {| heap := heap w; ext := x; trace := trace w ++ [e] |}.

Definition result {A} (o : Outcome A) : option A :=
  match o with Returned a _ => Some a | Panicked _ => None end.

Definition final {A} (o : Outcome A) : World :=
  match o with Returned _ w => w | Panicked w => w end.

(** The calls made by a run started in [w]. *)
Definition calls {A} (w : World) (o : Outcome A) : list Event :=
  drop (length (trace w)) (trace (final o)).

(** ** [buildHeaders] *)

Definition predefinedHeaders : gmap string string :=
  <["User-Agent" := "OpenTelemetry-Collector SignalFx Exporter/v0.0.1"]>
  (<["Content-Type" := "application/x-protobuf"]>
  (<["Connection" := "keep-alive"]> ∅)).

(** [for k, v := range m { headers[k] = v }]; ranging over a nil map does
    nothing. *)
Definition rangeInsert (m : option (gmap string string))
    (headers : gmap string string) : gmap string string :=
  match m with
  | None => headers
  | Some custom => map_fold (λ k v acc, <[k := v]> acc) headers custom
  end.

Definition buildHeaders (config : ptr) : M (gmap string string) :=
  let headers := predefinedHeaders in
  tok ← load config AccessToken;
  let headers :=
    if decide (tok ≠ "") then <[SFxAccessTokenHeader := tok]> headers else headers in
  custom ← load config (λ c, Headers (cfgHTTPClientSettings c));
  let headers := rangeInsert custom headers in
  store config (set_Headers None);;
  mret headers.

(** The map [buildHeaders] computes from the config it reads. *)
Definition headersOf (c : Config) : gmap string string :=
  rangeInsert (Headers (cfgHTTPClientSettings c))
    (if decide (AccessToken c ≠ "")
     then <[SFxAccessTokenHeader := AccessToken c]> predefinedHeaders
     else predefinedHeaders).

(** Two configs that agree on every field but the custom headers. *)
Definition same_but_Headers (c c' : Config) : Prop :=
  let h := cfgHTTPClientSettings c in
  let h' := cfgHTTPClientSettings c' in
  TLSSetting h' = TLSSetting h ∧
  MaxIdleConns h' = MaxIdleConns h ∧
  MaxIdleConnsPerHost h' = MaxIdleConnsPerHost h ∧
  IdleConnTimeout h' = IdleConnTimeout h ∧
  httpRest h' = httpRest h ∧
  AccessToken c' = AccessToken c ∧
  IngestTLSSettings c' = IngestTLSSettings c ∧
  APITLSSettings c' = APITLSSettings c ∧
  MaxConnections c' = MaxConnections c ∧
  SyncHostMetadata c' = SyncHostMetadata c ∧
  AccessTokenPassthrough c' = AccessTokenPassthrough c ∧
  ExcludeMetrics c' = ExcludeMetrics c ∧
  IncludeMetrics c' = IncludeMetrics c ∧
  NonAlphanumericDimensionChars c' = NonAlphanumericDimensionChars c ∧
  cfgRest c' = cfgRest c.

(** Dereference of a pointer result of another package; nil panics. *)
Definition deref {A} (p : option A) : M A :=
  match p with
  | Some a => mret a
  | None => panic
  end.

(** ** [createClient] *)

Definition createClient (se : signalfxExporter) (host : Host) : M (HTTPClient * error) :=
  ing ← load (config se) IngestTLSSettings;
  store (config se) (set_TLSSetting ing);;
  mic ← load (config se) (λ c, MaxIdleConns (cfgHTTPClientSettings c));
  match mic with
  | None => store (config se) (set_MaxIdleConns (Some AddrOf_MaxConnections))
  | Some _ => mret tt
  end;;
  mich ← load (config se) (λ c, MaxIdleConnsPerHost (cfgHTTPClientSettings c));
  match mich with
  | None => store (config se) (set_MaxIdleConnsPerHost (Some AddrOf_MaxConnections))
  | Some _ => mret tt
  end;;
  ict ← load (config se) (λ c, IdleConnTimeout (cfgHTTPClientSettings c));
  match ict with
  | None =>
      let defaultIdleConnTimeout := (30 * time_Second)%Z in
      store (config se) (set_IdleConnTimeout (Some defaultIdleConnTimeout))
  | Some _ => mret tt
  end;;
  c ← load (config se) id;
  call (EvToClient c host (telemetrySettings se))
       (ToClient_ c host (telemetrySettings se)).

(** The config [createClient] hands to [ToClient]: the ingest TLS settings
    copied in, and the three connection settings defaulted where nil. *)
Definition clientConfig (c : Config) : Config :=
  let c := set_TLSSetting (IngestTLSSettings c) c in
  let c := match MaxIdleConns (cfgHTTPClientSettings c) with
           | None => set_MaxIdleConns (Some AddrOf_MaxConnections) c
           | Some _ => c
           end in
  let c := match MaxIdleConnsPerHost (cfgHTTPClientSettings c) with
           | None => set_MaxIdleConnsPerHost (Some AddrOf_MaxConnections) c
           | Some _ => c
           end in
  match IdleConnTimeout (cfgHTTPClientSettings c) with
  | None => set_IdleConnTimeout (Some (30 * time_Second)%Z) c
  | Some _ => c
  end.

(** ** Constructors *)

Definition newSignalFxExporter (config : ptr) (createSettings : CreateSettings)
    : M (option signalfxExporter * error) :=
  match config with
  | nilptr => mret (None, Some (errors_New "nil config"))
  | addr _ =>
    c ← load config id;
    '(options, err) ← call (EvGetOptionsFromConfig c) (getOptionsFromConfig_ c);
    match err with
    | Some e => mret (None, Some e)
    | None =>
      sampledLogger ← call (EvCreateSampledLogger (cs_Logger createSettings))
                           (CreateSampledLogger_ (cs_Logger createSettings));
      options ← deref options;
      c ← load config id;
      '(converter, err) ←
        call (EvNewMetricsConverter sampledLogger (metricTranslator options)
                (ExcludeMetrics c) (IncludeMetrics c) (NonAlphanumericDimensionChars c))
             (NewMetricsConverter_ sampledLogger (metricTranslator options)
                (ExcludeMetrics c) (IncludeMetrics c) (NonAlphanumericDimensionChars c));
      match err with
      | Some e => mret (None, Some (fmt_Errorf_w "failed to create metric converter: " e))
      | None =>
        mret (Some {| config := config;
                      logger := cs_Logger createSettings;
                      telemetrySettings := cs_TelemetrySettings createSettings;
                      pushMetricsData := None;
                      pushMetadata := None;
                      pushLogsData := None;
                      hostMetadataSyncer := None;
                      converter := converter |}, None)
      end
    end
  end.

Definition newEventExporter (config : ptr) (createSettings : CreateSettings)
    : M (option signalfxExporter * error) :=
  match config with
  | nilptr => mret (None, Some (errors_New "nil config"))
  | addr _ =>
    c ← load config id;
    '(_, err) ← call (EvGetOptionsFromConfig c) (getOptionsFromConfig_ c);
    match err with
    | Some e => mret (None, Some (fmt_Errorf_w "failed to process config: " e))
    | None =>
      mret (Some {| config := config;
                    logger := cs_Logger createSettings;
                    telemetrySettings := cs_TelemetrySettings createSettings;
                    pushMetricsData := None;
                    pushMetadata := None;
                    pushLogsData := None;
                    hostMetadataSyncer := None;
                    converter := None |}, None)
    end
  end.

(** ** [start] and [startLogs] *)

(** The three assignments that end [start]. *)
Definition started (se : signalfxExporter) (dpClient : sfxDPClient)
    (dimClient : DimensionClient) (hms : option Syncer) : signalfxExporter :=
  {| config := config se;
     logger := logger se;
     telemetrySettings := telemetrySettings se;
     pushMetricsData := Some dpClient;
     pushMetadata := Some dimClient;
     pushLogsData := pushLogsData se;
     hostMetadataSyncer := hms;
     converter := converter se |}.

Definition dimensionClientOptions (se : signalfxExporter) (options : exporterOptions)
    (apiTLSCfg : TLSConfig) (conv : MetricsConverter) : DimensionClientOptions :=
  {| Token := token options;
     APIURL := apiURL options;
     APITLSConfig := apiTLSCfg;
     LogUpdates := logDimUpdate options;
     dco_Logger := logger se;
     SendDelay := 10;
     PropertiesMaxBuffered := 10000;
     dco_MetricsConverter := conv |}.

Definition start (se : signalfxExporter) (host : Host) : M (error * signalfxExporter) :=
  c ← load (config se) id;
  '(options, err) ← call (EvGetOptionsFromConfig c) (getOptionsFromConfig_ c);
  match err with
  | Some e => mret (Some e, se)
  | None =>
    headers ← buildHeaders (config se);
    '(client, err) ← createClient se host;
    match err with
    | Some e => mret (Some e, se)
    | None =>
      options ← deref options;
      passthrough ← load (config se) AccessTokenPassthrough;
      let dpClient :=
        {| dp_base := {| base_ingestURL := ingestURL options;
                         base_headers := headers;
                         base_client := client;
                         base_zippers := newGzipPool |};
           dp_logDataPoints := logDataPoints options;
           dp_logger := logger se;
           dp_accessTokenPassthrough := passthrough;
           dp_converter := converter se |} in
      apiTLS ← load (config se) APITLSSettings;
      '(apiTLSCfg, err) ← call (EvLoadTLSConfig apiTLS) (LoadTLSConfig_ apiTLS);
      match err with
      | Some e => mret (Some (fmt_Errorf_w "could not load API TLS config: " e), se)
      | None =>
        conv ← deref (converter se);
        let opts := dimensionClientOptions se options apiTLSCfg conv in
        dimClient ← call (EvNewDimensionClient opts) (NewDimensionClient_ opts);
        call (EvDimensionClientStart dimClient) (DimensionClientStart_ dimClient);;
        sync ← load (config se) SyncHostMetadata;
        hms ← (if sync : bool
               then call (EvNewSyncer (logger se) dimClient)
                         (NewSyncer_ (logger se) dimClient)
               else mret None);
        mret (None, started se dpClient dimClient hms)
      end
    end
  end.

Definition startedLogs (se : signalfxExporter) (eventClient : sfxEventClient)
    : signalfxExporter :=
  {| config := config se;
     logger := logger se;
     telemetrySettings := telemetrySettings se;
     pushMetricsData := pushMetricsData se;
     pushMetadata := pushMetadata se;
     pushLogsData := Some eventClient;
     hostMetadataSyncer := hostMetadataSyncer se;
     converter := converter se |}.

Definition startLogs (se : signalfxExporter) (host : Host) : M (error * signalfxExporter) :=
  c ← load (config se) id;
  '(options, err) ← call (EvGetOptionsFromConfig c) (getOptionsFromConfig_ c);
  match err with
  | Some e => mret (Some (fmt_Errorf_w "failed to process config: " e), se)
  | None =>
    headers ← buildHeaders (config se);
    '(client, err) ← createClient se host;
    match err with
    | Some e => mret (Some e, se)
    | None =>
      options ← deref options;
      passthrough ← load (config se) AccessTokenPassthrough;
      let eventClient :=
        {| ev_base := {| base_ingestURL := ingestURL options;
                         base_headers := headers;
                         base_client := client;
                         base_zippers := newGzipPool |};
           ev_logger := logger se;
           ev_accessTokenPassthrough := passthrough |} in
      mret (None, startedLogs se eventClient)
    end
  end.

(** The flush interval and the capacity of every dimension client that a
    list of calls constructs. *)
Definition constructed (evs : list Event) : list (Z * Z) :=
  omap (λ e, match e with
             | EvNewDimensionClient o => Some (SendDelay o, PropertiesMaxBuffered o)
             | _ => None
             end) evs.

(** ** The push paths *)

Definition ConsumeMetadata (sme : signalfMetadataExporter)
    (metadata : list MetadataUpdate) : M error :=
  d ← deref (sme_pushMetadata sme);
  call (EvPushMetadata d metadata) (PushMetadata_ d metadata).

Definition pushMetrics (se : signalfxExporter) (ctx : Context_) (md : Metrics) : M error :=
  dp ← deref (pushMetricsData se);
  '(_, err) ← call (EvPushMetricsData dp ctx md) (pushMetricsData_ dp ctx md);
  match err, hostMetadataSyncer se with
  | None, Some hms => call (EvSync hms md) (Sync_ hms md)
  | _, _ => mret tt
  end;;
  mret err.

Definition pushLogs (se : signalfxExporter) (ctx : Context_) (ld : Logs) : M error :=
  ec ← deref (pushLogsData se);
  '(_, err) ← call (EvPushLogsData ec ctx ld) (pushLogsData_ ec ctx ld);
  mret err.

End Exporter.

Arguments Returned {F A} a w.
Arguments Panicked {F A} w.

(** ** The Metadata Update Coordinator

    [exporter.go] constructs and starts the dimension client but its code
    lives in [internal/dimensions]. The coordinator below follows the
    specification's description of it (sections 3 and 4.2). *)

Module Coordinator.

Inductive UpdateKind : Type := Upsert | TagOnly.

(** Modelled from the spec: the data model's PropertyUpdate, declared in the
    absent package [internal/dimensions]; identified by [resourceKey]. *)
Record PropertyUpdate : Type := {
  resourceKey : string;
  properties : gmap string string;
  tags : gset string;
  updateKind : UpdateKind
}.

(** Modelled from the spec: coalescing of two updates for one resourceKey,
    absent from the sources; later values win per field, tag sets are
    unioned. *)
Definition coalesce (old new : PropertyUpdate) : PropertyUpdate :=
  {| resourceKey := resourceKey new;
     properties := properties new ∪ properties old;
     tags := tags old ∪ tags new;
     updateKind := updateKind new |}.

Inductive Phase : Type := Created | Running | Stopped.

(** The implementer's choice for a programmer error. *)
Inductive Misuse : Type := NoOp | ExplicitError.

Inductive Answer (A : Type) : Type :=
| Ok (a : A)
| ProgrammerError.
Arguments Ok {A} a.
Arguments ProgrammerError {A}.

(** Modelled from the spec: the Coordinator State
    [{pending, capacity, flushIntervalMs}] of the absent dimension client,
    with its lifecycle phase, its rejected-update counter and the batches it
    has handed to the backend (each with whether the call succeeded). *)
Record State : Type := {
  pending : gmap string PropertyUpdate;
  capacity : nat;
  flushIntervalMs : N;
  phase : Phase;
  rejected : nat;
  flushed : list (gmap string PropertyUpdate * bool)
}.

Definition new (capacity : nat) (flushIntervalMs : N) : State :=
  {| pending := ∅; capacity := capacity; flushIntervalMs := flushIntervalMs;
     phase := Created; rejected := 0; flushed := [] |}.

Definition with_pending (p : gmap string PropertyUpdate) (st : State) : State :=
  {| pending := p; capacity := capacity st; flushIntervalMs := flushIntervalMs st;
     phase := phase st; rejected := rejected st; flushed := flushed st |}.

Definition with_phase (ph : Phase) (st : State) : State :=
  {| pending := pending st; capacity := capacity st;
     flushIntervalMs := flushIntervalMs st;
     phase := ph; rejected := rejected st; flushed := flushed st |}.

Definition count_rejected (st : State) : State :=
  {| pending := pending st; capacity := capacity st;
     flushIntervalMs := flushIntervalMs st;
     phase := phase st; rejected := S (rejected st); flushed := flushed st |}.

(** The answer to a programmer error under either choice; the state is left
    as it is. *)
Definition misuse {A} (choice : Misuse) (noop : A) : Answer A :=
  match choice with
  | NoOp => Ok noop
  | ExplicitError => ProgrammerError
  end.

(** Modelled from the spec: [enqueue(update) -> accepted] of the absent
    dimension client; coalesces into [pending] by resourceKey, and returns
    false and counts a rejection if at capacity and the key is new. *)
Definition enqueue (choice : Misuse) (u : PropertyUpdate) (st : State)
    : Answer bool * State :=
  match phase st with
  | Stopped => (misuse choice false, st)
  | _ =>
    match pending st !! resourceKey u with
    | Some old =>
        (Ok true, with_pending (<[resourceKey u := coalesce old u]> (pending st)) st)
    | None =>
        if decide (capacity st ≤ size (pending st))
        then (Ok false, count_rejected st)
        else (Ok true, with_pending (<[resourceKey u := u]> (pending st)) st)
    end
  end.

(** Modelled from the spec: one flush of the absent dimension client; drains
    [pending] into a batch, clears [pending] and sends the batch; a batch
    whose send fails ([sent = false]) is dropped, not buffered again. *)
Definition flush (sent : bool) (st : State) : State :=
  {| pending := ∅; capacity := capacity st; flushIntervalMs := flushIntervalMs st;
     phase := phase st; rejected := rejected st;
     flushed := flushed st ++ [(pending st, sent)] |}.

(** Modelled from the spec: a tick of the background flush loop, which runs
    between [start] and [stop] only. *)
Definition tick (sent : bool) (st : State) : State :=
  match phase st with
  | Running => flush sent st
  | _ => st
  end.

(** Modelled from the spec: [start()] of the absent dimension client;
    launches the background loop, and starting twice is a programmer
    error. *)
Definition start (choice : Misuse) (st : State) : Answer unit * State :=
  match phase st with
  | Created => (Ok tt, with_phase Running st)
  | _ => (misuse choice tt, st)
  end.

(** Modelled from the spec: [stop()] of the absent dimension client;
    terminates the loop after one final best-effort flush of whatever
    remains pending. *)
Definition stop (sent : bool) (st : State) : Answer unit * State :=
  match phase st with
  | Stopped => (Ok tt, st)
  | _ => (Ok tt, with_phase Stopped (flush sent st))
  end.

(** What callers and the timer can do to a coordinator. *)
Inductive Op : Type :=
| OpStart
| OpStop (sent : bool)
| OpEnqueue (u : PropertyUpdate)
| OpTick (sent : bool).

Definition step (choice : Misuse) (st : State) (op : Op) : State :=
  match op with
  | OpStart => (start choice st).2
  | OpStop sent => (stop sent st).2
  | OpEnqueue u => (enqueue choice u st).2
  | OpTick sent => tick sent st
  end.

Definition run (choice : Misuse) (ops : list Op) (st : State) : State :=
  foldl (step choice) st ops.

(** The invariant [|pending| ≤ capacity]. *)
Definition bounded (st : State) : Prop := size (pending st) ≤ capacity st.

End Coordinator.

Section CoordinatorOfOptions.
Context {F : Foreign}.

(** Modelled from the spec: the coordinator that [NewDimensionClient], of
    the absent package [internal/dimensions], builds from its options; the
    capacity is [PropertiesMaxBuffered] and the flush interval, in
    milliseconds, is [SendDelay] seconds. *)
Definition coordinatorOf (o : DimensionClientOptions) : Coordinator.State :=
  Coordinator.new (Z.to_nat (PropertiesMaxBuffered o)) (Z.to_N (1000 * SendDelay o)).

End CoordinatorOfOptions.

(** ** A stubbed environment for concrete runs

    Foreign types are instantiated with small data types and the called
    packages with stubs that answer from a script, in the manner of the
    package's unit tests. *)

Module Fixture.

Record Script : Type := {
  optionsError : error;   (* what getOptionsFromConfig fails with, if anything *)
  clientError : error;    (* what ToClient fails with *)
  tlsError : error;       (* what LoadTLSConfig fails with *)
  dropped : Z;            (* the dropped count the push functions report *)
  pushError : error;      (* the error the push functions report *)
  synced : nat;           (* how many batches the syncer has been given *)
  launched : list nat     (* the dimension clients whose Start has run *)
}.

Definition count_sync (x : Script) : Script :=
  {| optionsError := optionsError x; clientError := clientError x;
     tlsError := tlsError x; dropped := dropped x; pushError := pushError x;
     synced := S (synced x); launched := launched x |}.

Definition launch (d : nat) (x : Script) : Script :=
  {| optionsError := optionsError x; clientError := clientError x;
     tlsError := tlsError x; dropped := dropped x; pushError := pushError x;
     synced := synced x; launched := launched x ++ [d] |}.

#[export] Instance foreign : Foreign := {|
  Context_ := unit;
  Metrics := list string;
  Logs := list string;
  Host := unit;
  Logger := unit;
  TelemetrySettings := unit;
  HTTPClient := unit;
  TLSClientSetting := string;
  TLSConfig := string;
  URL := string;
  MetricTranslator := unit;
  MetricsConverter := unit;
  MetricFilter := string;
  DimensionClient := nat;
  Syncer := nat;
  MetadataUpdate := string;
  AccessTokenPassthroughConfig := bool;
  HTTPClientRest := unit;
  ConfigRest := nat;
  ExtState := Script;
  SFxAccessTokenHeader := "X-Sf-Token"
|}.

Definition options : exporterOptions :=
  {| ingestURL := "https://ingest.example/";
     ingestTLSSettings := "";
     apiURL := "https://api.example/";
     apiTLSSettings := "";
     httpTimeout := 5;
     token := "secret";
     logDataPoints := false;
     logDimUpdate := false;
     metricTranslator := tt |}.

#[export] Instance runtime : Runtime := {|
  getOptionsFromConfig_ c x :=
    match optionsError x with
    | None => ((Some options, None), x)
    | Some e => ((None, Some e), x)
    end;
  CreateSampledLogger_ l x := (l, x);
  NewMetricsConverter_ l t excl incl chars x := ((Some tt, None), x);
  ToClient_ c h ts x := ((tt, clientError x), x);
  LoadTLSConfig_ t x := ((t, tlsError x), x);
  NewDimensionClient_ o x := (7%nat, x);
  DimensionClientStart_ d x := (tt, launch d x);
  NewSyncer_ l d x := (Some d, x);
  pushMetricsData_ c ctx md x := ((dropped x, pushError x), x);
  pushLogsData_ c ctx ld x := ((dropped x, pushError x), x);
  PushMetadata_ d m x := (None, x);
  Sync_ s md x := (tt, count_sync x)
|}.

Definition httpSettings (headers : option (gmap string string)) : HTTPClientSettings :=
  {| Headers := headers; TLSSetting := ""; MaxIdleConns := None;
     MaxIdleConnsPerHost := None; IdleConnTimeout := None; httpRest := tt |}.

Definition cfg (accessToken : string) (headers : option (gmap string string))
    (syncHostMetadata : bool) (rest : nat) : Config :=
  {| cfgHTTPClientSettings := httpSettings headers;
     AccessToken := accessToken;
     IngestTLSSettings := "ingest-tls";
     APITLSSettings := "api-tls";
     MaxConnections := 100;
     SyncHostMetadata := syncHostMetadata;
     AccessTokenPassthrough := true;
     ExcludeMetrics := [];
     IncludeMetrics := [];
     NonAlphanumericDimensionChars := "_-.";
     cfgRest := rest |}.

(** A backend that accepts everything, dropping [n] records. *)
Definition accepting (n : Z) : Script :=
  {| optionsError := None; clientError := None; tlsError := None;
     dropped := n; pushError := None; synced := 0;
     launched := [] |}.

(** A backend whose push fails with [e], dropping [n] records. *)
Definition failing (n : Z) (e : goerror) : Script :=
  {| optionsError := None; clientError := None; tlsError := None;
     dropped := n; pushError := Some e; synced := 0;
     launched := [] |}.

(** A world holding one config at address 1. *)
Definition world (c : Config) (x : Script) : World :=
  {| heap := {[ 1%positive := c ]}; ext := x; trace := [] |}.

Definition base : sfxClientBase :=
  {| base_ingestURL := "https://ingest.example/"; base_headers := ∅;
     base_client := tt; base_zippers := newGzipPool |}.

Definition dpClient : sfxDPClient :=
  {| dp_base := base; dp_logDataPoints := false; dp_logger := tt;
     dp_accessTokenPassthrough := true; dp_converter := Some tt |}.

Definition eventClient : sfxEventClient :=
  {| ev_base := base; ev_logger := tt; ev_accessTokenPassthrough := true |}.

(** An exporter as the constructors leave it. *)
Definition fresh : signalfxExporter :=
  {| config := addr 1; logger := tt; telemetrySettings := tt;
     pushMetricsData := None; pushMetadata := None; pushLogsData := None;
     hostMetadataSyncer := None; converter := Some tt |}.

(** A started exporter, with or without a host-metadata syncer. *)
Definition running (hms : option nat) : signalfxExporter :=
  {| config := addr 1; logger := tt; telemetrySettings := tt;
     pushMetricsData := Some dpClient; pushMetadata := Some 7%nat;
     pushLogsData := Some eventClient;
     hostMetadataSyncer := hms; converter := Some tt |}.

(** The data point client and the event client that [start] and
    [startLogs] build in this environment, for a given header map. *)
Definition wiredDPClient (headers : gmap string string) : sfxDPClient :=
  {| dp_base := {| base_ingestURL := "https://ingest.example/";
                   base_headers := headers;
                   base_client := tt; base_zippers := newGzipPool |};
     dp_logDataPoints := false; dp_logger := tt;
     dp_accessTokenPassthrough := true; dp_converter := Some tt |}.

Definition wiredEventClient (headers : gmap string string) : sfxEventClient :=
  {| ev_base := {| base_ingestURL := "https://ingest.example/";
                   base_headers := headers;
                   base_client := tt; base_zippers := newGzipPool |};
     ev_logger := tt; ev_accessTokenPassthrough := true |}.

(** A config with one custom header, and a backend whose client factory
    fails. *)
Definition cfgTeam : Config := cfg "tok" (Some {[ "X-Team" := "obs" ]}) true 0.

Definition noClient (e : goerror) : Script :=
  {| optionsError := None; clientError := Some e; tlsError := None;
     dropped := 0; pushError := None; synced := 0;
     launched := [] |}.

Definition noOptions (e : goerror) : Script :=
  {| optionsError := Some e; clientError := None; tlsError := None;
     dropped := 0; pushError := None; synced := 0;
     launched := [] |}.

Definition noTLS (e : goerror) : Script :=
  {| optionsError := None; clientError := None; tlsError := Some e;
     dropped := 0; pushError := None; synced := 0;
     launched := [] |}.

Definition createSettings : CreateSettings :=
  {| cs_Logger := tt; cs_TelemetrySettings := tt |}.

(** An exporter as [newEventExporter] leaves it. *)
Definition freshEvents : signalfxExporter :=
  {| config := addr 1; logger := tt; telemetrySettings := tt;
     pushMetricsData := None; pushMetadata := None; pushLogsData := None;
     hostMetadataSyncer := None; converter := None |}.

(** The headers built from [cfgTeam] the first time and afterwards. *)
Definition teamHeaders : gmap string string :=
  <["X-Team" := "obs"]> (<["X-Sf-Token" := "tok"]> predefinedHeaders).

Definition plainHeaders : gmap string string :=
  <["X-Sf-Token" := "tok"]> predefinedHeaders.

(** Two property updates for two hosts. *)
Definition host1 : Coordinator.PropertyUpdate :=
  {| Coordinator.resourceKey := "h1";
     Coordinator.properties := {[ "a" := "1" ]};
     Coordinator.tags := ∅;
     Coordinator.updateKind := Coordinator.Upsert |}.

Definition host2 : Coordinator.PropertyUpdate :=
  {| Coordinator.resourceKey := "h2";
     Coordinator.properties := {[ "b" := "3" ]};
     Coordinator.tags := {[ "prod" ]};
     Coordinator.updateKind := Coordinator.Upsert |}.

End Fixture.

(** * Properties *)

(** Membership of an event in an explicit list of calls. *)
Ltac in_calls :=
  unfold calls; simpl;
  rewrite <- ?app_assoc, ?drop_app_length, ?drop_all; simpl;
  rewrite ?elem_of_cons, ?elem_of_nil.

(** An event that is none of the listed calls. *)
Ltac pick_call :=
  repeat match goal with
         | H : _ ∨ _ |- _ => destruct H as [H|H]
         | H : False |- _ => destruct H
         | H : @eq Event _ _ |- _ => first [discriminate H | injection H as ?; subst]
         end.

Section Properties.
Context {F : Foreign} {R : Runtime}.

(** ** Running the monad *)

Lemma bind_run {A B} (m : M A) (f : A → M B) (w : World) :
  (m ≫= f) w = match m w with
               | Returned a w' => f a w'
               | Panicked w' => Panicked w'
               end.
Proof. reflexivity. Qed.

Lemma load_run {A} (l : positive) (f : Config → A) (c : Config) (w : World) :
  heap w !! l = Some c → load (addr l) f w = Returned (f c) w.
Proof. intros H. unfold load. by rewrite H. Qed.

Lemma store_run (l : positive) (f : Config → Config) (c : Config) (w : World) :
  heap w !! l = Some c →
  store (addr l) f w =
    Returned tt {| heap := <[l := f c]> (heap w); ext := ext w; trace := trace w |}.
Proof. intros H. unfold store. by rewrite H. Qed.

(** ** The header map *)

(** The loop over the custom headers overrides entry by entry, whatever the
    order in which the map is ranged over. *)
Lemma rangeInsert_lookup (m : option (gmap string string))
    (headers : gmap string string) (k : string) :
  rangeInsert m headers !! k =
    match default ∅ m !! k with
    | Some v => Some v
    | None => headers !! k
    end.
Proof.
  destruct m as [custom|]; simpl; [|by rewrite lookup_empty].
  revert k.
  apply (map_fold_weak_ind
    (λ (r : gmap string string) (cm : gmap string string),
       ∀ k, r !! k = match cm !! k with Some v => Some v | None => headers !! k end)).
  - intros k. by rewrite lookup_empty.
  - intros i x cm r Hi IH k. destruct (decide (i = k)) as [->|Hne].
    + by rewrite !lookup_insert_eq.
    + rewrite !lookup_insert_ne by done. apply IH.
Qed.

Lemma buildHeaders_run (l : positive) (c : Config) (w : World) :
  heap w !! l = Some c →
  buildHeaders (addr l) w =
    Returned (headersOf c)
      {| heap := <[l := set_Headers None c]> (heap w); ext := ext w; trace := trace w |}.
Proof.
  intros H. unfold buildHeaders.
  rewrite bind_run, (load_run l _ c) by done.
  rewrite bind_run, (load_run l _ c) by done.
  rewrite bind_run, (store_run l _ c) by done.
  reflexivity.
Qed.


Lemma clientConfig_Headers (c : Config) :
  Headers (cfgHTTPClientSettings (clientConfig c)) = Headers (cfgHTTPClientSettings c).
Proof.
  unfold clientConfig; simpl.
  repeat match goal with
         | |- context [match ?x with _ => _ end] => destruct x; simpl
         end; reflexivity.
Qed.

Lemma clientConfig_SyncHostMetadata (c : Config) :
  SyncHostMetadata (clientConfig c) = SyncHostMetadata c.
Proof.
  unfold clientConfig; simpl.
  repeat match goal with
         | |- context [match ?x with _ => _ end] => destruct x; simpl
         end; reflexivity.
Qed.

Lemma createClient_run (se : signalfxExporter) (host : Host) (w : World)
    (l : positive) (c : Config) :
  config se = addr l → heap w !! l = Some c →
  createClient se host w =
    call (EvToClient (clientConfig c) host (telemetrySettings se))
         (ToClient_ (clientConfig c) host (telemetrySettings se))
         {| heap := <[l := clientConfig c]> (heap w); ext := ext w; trace := trace w |}.
Proof.
  intros Hse Hl.
  unfold createClient, clientConfig, load, store, call.
  unfold mbind, M_bind, mret, M_ret. rewrite Hse.
  repeat first
    [ rewrite Hl
    | rewrite lookup_insert_eq
    | rewrite insert_insert_eq
    | progress simpl
    | match goal with
      | |- context [match ?x with Some _ => _ | None => _ end] => destruct x eqn:?
      end ].
  all: reflexivity.
Qed.

(** Symbolic execution of [start] and [startLogs] over a heap in which the
    config pointer is known: bind by bind, branching on what the called
    packages answer. *)
Ltac exec Hse Hl :=
  unfold start, startLogs, call, load, store, deref, panic;
  unfold mbind, M_bind, mret, M_ret;
  repeat first
    [ rewrite Hl
    | rewrite Hse
    | rewrite lookup_insert_eq
    | rewrite insert_insert_eq
    | erewrite buildHeaders_run by (first [exact Hl | apply lookup_insert_eq])
    | erewrite createClient_run by (first [exact Hse | exact Hl | apply lookup_insert_eq])
    | progress (unfold call)
    | progress simpl
    | match goal with
      | |- context [match ?x with _ => _ end] =>
          lazymatch x with
          | context [match _ with _ => _ end] => fail
          | _ => destruct x eqn:?
          end
      end ].

Lemma start_client_sees_no_headers (se : signalfxExporter) (host : Host)
    (w : World) (l : positive) (c : Config) :
  config se = addr l → heap w !! l = Some c →
  ∀ c' h ts, EvToClient c' h ts ∈ calls w (start se host w) →
    Headers (cfgHTTPClientSettings c') = None.
Proof.
  intros Hse Hl c' h ts. exec Hse Hl.
  all: in_calls; intros Hin; pick_call.
  all: by rewrite clientConfig_Headers.
Qed.

Lemma startLogs_client_sees_no_headers (se : signalfxExporter) (host : Host)
    (w : World) (l : positive) (c : Config) :
  config se = addr l → heap w !! l = Some c →
  ∀ c' h ts, EvToClient c' h ts ∈ calls w (startLogs se host w) →
    Headers (cfgHTTPClientSettings c') = None.
Proof.
  intros Hse Hl c' h ts. exec Hse Hl.
  all: in_calls; intros Hin; pick_call.
  all: by rewrite clientConfig_Headers.
Qed.


(** C10. [buildHeaders] writes through its config argument: when it returns,
    the config's custom headers are nil, every custom header is in the
    returned map, and the HTTP client that [start] or [startLogs] creates
    afterwards is built from a config without custom headers. Every other
    field of the config, every other config, the external state and the trace
    of calls are as before. *)
Theorem buildHeaders_clears_config_headers (l : positive) (c : Config) (w : World) :
  heap w !! l = Some c →
  ∃ hs w' c',
    buildHeaders (addr l) w = Returned hs w' ∧
    heap w' !! l = Some c' ∧
    Headers (cfgHTTPClientSettings c') = None ∧
    (∀ k v, default ∅ (Headers (cfgHTTPClientSettings c)) !! k = Some v →
            hs !! k = Some v) ∧
    (∀ se host cc h ts, config se = addr l →
       EvToClient cc h ts ∈ calls w (start se host w) ∨
       EvToClient cc h ts ∈ calls w (startLogs se host w) →
       Headers (cfgHTTPClientSettings cc) = None) ∧
    same_but_Headers c c' ∧
    (∀ l', l' ≠ l → heap w' !! l' = heap w !! l') ∧
    ext w' = ext w ∧
    trace w' = trace w.
Proof.
  intros Hl. eexists _, _, (set_Headers None c).
  split; [by apply buildHeaders_run|]. simpl.
  split; [apply lookup_insert_eq|].
  split; [reflexivity|].
  split.
  { intros k v Hk. unfold headersOf. by rewrite rangeInsert_lookup, Hk. }
  split.
  { intros se host cc h ts Hse [Hin|Hin].
    - eapply start_client_sees_no_headers; eauto.
    - eapply startLogs_client_sees_no_headers; eauto. }
  split; [by repeat split|].
  split; [|done].
  intros l' Hne. by rewrite lookup_insert_ne.
Qed.

(** ** The push paths *)

(** What [pushMetrics] does once the exporter is started, in full. *)
Lemma pushMetrics_run (se : signalfxExporter) (ctx : Context_) (md : Metrics)
    (w : World) (dp : sfxDPClient) :
  pushMetricsData se = Some dp →
  pushMetrics se ctx md w =
    let '((_, err), x) := pushMetricsData_ dp ctx md (ext w) in
    let dispatched := trace w ++ [EvPushMetricsData dp ctx md] in
    match err, hostMetadataSyncer se with
    | None, Some hms =>
        Returned err {| heap := heap w; ext := (Sync_ hms md x).2;
                        trace := dispatched ++ [EvSync hms md] |}
    | _, _ => Returned err {| heap := heap w; ext := x; trace := dispatched |}
    end.
Proof.
  intros Hdp. unfold pushMetrics, call, deref. unfold mbind, M_bind, mret, M_ret.
  rewrite Hdp. simpl.
  destruct (pushMetricsData_ dp ctx md (ext w)) as [[dropped err] x]. simpl.
  destruct err, (hostMetadataSyncer se) as [hms|]; simpl; try reflexivity.
  by destruct (Sync_ hms md x).
Qed.

Lemma pushLogs_run (se : signalfxExporter) (ctx : Context_) (ld : Logs)
    (w : World) (ec : sfxEventClient) :
  pushLogsData se = Some ec →
  pushLogs se ctx ld w =
    let '((_, err), x) := pushLogsData_ ec ctx ld (ext w) in
    Returned err {| heap := heap w; ext := x;
                    trace := trace w ++ [EvPushLogsData ec ctx ld] |}.
Proof.
  intros Hec. unfold pushLogs, call, deref. unfold mbind, M_bind, mret, M_ret.
  rewrite Hec. simpl.
  by destruct (pushLogsData_ ec ctx ld (ext w)) as [[dropped err] x].
Qed.

(** C1. For every metrics batch, a started exporter's [pushMetrics] runs
    [pushMetricsData] (encode and dispatch) on the batch; it runs [Sync] on
    that batch, on the state dispatch left, if and only if the dispatch
    error is nil and a host-metadata syncer is set; and it returns the
    dispatch error in either case. The state, the trace and the configs
    after the call are exactly those of these one or two calls. *)
Theorem pushMetrics_dispatch_then_sync (se : signalfxExporter) (ctx : Context_)
    (md : Metrics) (w : World) (dp : sfxDPClient) :
  pushMetricsData se = Some dp →
  let dispatched := pushMetricsData_ dp ctx md (ext w) in
  let err := dispatched.1.2 in
  let run := pushMetrics se ctx md w in
  result run = Some err ∧
  calls w run =
    EvPushMetricsData dp ctx md ::
    match err, hostMetadataSyncer se with
    | None, Some hms => [EvSync hms md]
    | _, _ => []
    end ∧
  (∀ s m, EvSync s m ∈ calls w run ↔
          err = None ∧ hostMetadataSyncer se = Some s ∧ m = md) ∧
  ext (final run) =
    match err, hostMetadataSyncer se with
    | None, Some hms => (Sync_ hms md dispatched.2).2
    | _, _ => dispatched.2
    end ∧
  trace (final run) = trace w ++ calls w run ∧
  heap (final run) = heap w.
Proof.
  intros Hdp. simpl. rewrite (pushMetrics_run _ _ _ _ dp Hdp).
  destruct (pushMetricsData_ dp ctx md (ext w)) as [[dropped err] x]. simpl.
  destruct err as [e|], (hostMetadataSyncer se) as [hms|]; simpl.
  all: split; [reflexivity|].
  all: split; [in_calls; reflexivity|].
  all: split;
    [intros s m; in_calls; split;
       [intros Hin; pick_call; done|intros (? & ? & ?); simplify_eq; auto]|].
  all: split; [reflexivity|].
  all: split; [|reflexivity].
  all: unfold calls; simpl; rewrite <- ?app_assoc, ?drop_app_length; reflexivity.
Qed.

(** C2. [Sync] is never called when dispatch failed: if [pushMetricsData]
    returns a non-nil error, [pushMetrics] makes that one call and returns.
    When [Sync] is called, the dispatch call comes first in the trace, it
    returned a nil error, and [Sync] runs on the state dispatch left behind.
    In every case the value returned is the dispatch error. *)
Theorem sync_only_after_successful_dispatch (se : signalfxExporter)
    (ctx : Context_) (md : Metrics) (w : World) (dp : sfxDPClient) :
  pushMetricsData se = Some dp →
  let dispatched := pushMetricsData_ dp ctx md (ext w) in
  let err := dispatched.1.2 in
  let run := pushMetrics se ctx md w in
  (err ≠ None →
     calls w run = [EvPushMetricsData dp ctx md] ∧ ext (final run) = dispatched.2) ∧
  (∀ i s m, calls w run !! i = Some (EvSync s m) →
     err = None ∧
     calls w run !! 0 = Some (EvPushMetricsData dp ctx md) ∧
     0 < i ∧
     ext (final run) = (Sync_ s m dispatched.2).2) ∧
  result run = Some err.
Proof.
  intros Hdp. simpl. rewrite (pushMetrics_run _ _ _ _ dp Hdp).
  destruct (pushMetricsData_ dp ctx md (ext w)) as [[dropped err] x]. simpl.
  destruct err as [e|], (hostMetadataSyncer se) as [hms|]; simpl.
  all: unfold calls; simpl; rewrite <- ?app_assoc, ?drop_app_length; simpl.
  all: split; [intros Hne; first [by destruct Hne | by split]|].
  all: split; [|reflexivity].
  all: intros i s m Hi; destruct i as [|[|i]]; simpl in Hi; simplify_eq.
  repeat split; lia.
Qed.

(** C3 (amended). [pushMetrics] and [pushLogs] return the error of the
    inner push function and nothing else: the dropped count is discarded, so
    two inner results with the same error and any two dropped counts give
    the same return value. Each half holds for every exporter whose
    function for that path is set, as [start] does for metrics and
    [startLogs] for logs. *)
Theorem push_returns_error_only (se : signalfxExporter) (ctx : Context_)
    (md : Metrics) (ld : Logs) (w1 w2 : World) :
  (∀ dp, pushMetricsData se = Some dp →
     let m1 := pushMetricsData_ dp ctx md (ext w1) in
     let m2 := pushMetricsData_ dp ctx md (ext w2) in
     result (pushMetrics se ctx md w1) = Some m1.1.2 ∧
     (m1.1.2 = m2.1.2 →
        result (pushMetrics se ctx md w1) = result (pushMetrics se ctx md w2))) ∧
  (∀ ec, pushLogsData se = Some ec →
     let l1 := pushLogsData_ ec ctx ld (ext w1) in
     let l2 := pushLogsData_ ec ctx ld (ext w2) in
     result (pushLogs se ctx ld w1) = Some l1.1.2 ∧
     (l1.1.2 = l2.1.2 →
        result (pushLogs se ctx ld w1) = result (pushLogs se ctx ld w2))).
Proof.
  split.
  - intros dp Hdp. simpl. rewrite !(pushMetrics_run _ _ _ _ dp Hdp).
    destruct (pushMetricsData_ dp ctx md (ext w1)) as [[d1 e1] x1].
    destruct (pushMetricsData_ dp ctx md (ext w2)) as [[d2 e2] x2]. simpl.
    split.
    + by destruct e1, (hostMetadataSyncer se).
    + intros ->. by destruct e2, (hostMetadataSyncer se).
  - intros ec Hec. simpl. rewrite !(pushLogs_run _ _ _ _ ec Hec).
    destruct (pushLogsData_ ec ctx ld (ext w1)) as [[d3 e3] x3].
    destruct (pushLogsData_ ec ctx ld (ext w2)) as [[d4 e4] x4]. simpl.
    split; [done|]. by intros ->.
Qed.

(** C4. For every logs batch, a started exporter's [pushLogs] makes exactly
    one call, to [pushLogsData] (encode and dispatch): no [Sync], no
    [PushMetadata] and no other call; it returns the dispatch error and
    leaves the configs as they were. *)
Theorem pushLogs_dispatch_only (se : signalfxExporter) (ctx : Context_)
    (ld : Logs) (w : World) (ec : sfxEventClient) :
  pushLogsData se = Some ec →
  let dispatched := pushLogsData_ ec ctx ld (ext w) in
  let run := pushLogs se ctx ld w in
  result run = Some dispatched.1.2 ∧
  calls w run = [EvPushLogsData ec ctx ld] ∧
  (∀ s m, EvSync s m ∉ calls w run) ∧
  (∀ d m, EvPushMetadata d m ∉ calls w run) ∧
  (∀ lg d, EvNewSyncer lg d ∉ calls w run) ∧
  heap (final run) = heap w ∧
  ext (final run) = dispatched.2.
Proof.
  intros Hec. simpl. rewrite (pushLogs_run _ _ _ _ ec Hec).
  destruct (pushLogsData_ ec ctx ld (ext w)) as [[dropped err] x]. simpl.
  split; [reflexivity|].
  split; [by in_calls|].
  repeat split; try (intros ? ?; in_calls; intros Hin; pick_call).
Qed.

(** ** What [start] wires together *)

(** The calls of a [start] that returns a nil error, and the fields it sets. *)
Lemma start_ok_calls (se se' : signalfxExporter) (host : Host) (w : World)
    (l : positive) (c : Config) :
  config se = addr l → heap w !! l = Some c →
  result (start se host w) = Some (None, se') →
  let c2 := clientConfig (set_Headers None c) in
  ∃ o d x tail,
    calls w (start se host w) =
      [EvGetOptionsFromConfig c; EvToClient c2 host (telemetrySettings se);
       EvLoadTLSConfig (APITLSSettings c2); EvNewDimensionClient o;
       EvDimensionClientStart d] ++ tail ∧
    SendDelay o = 10%Z ∧ PropertiesMaxBuffered o = 10000%Z ∧
    d = (NewDimensionClient_ o x).1 ∧
    pushMetadata se' = Some d ∧
    (getOptionsFromConfig_ c (ext w)).1.2 = None ∧
    (if SyncHostMetadata c
     then ∃ x', tail = [EvNewSyncer (logger se) d] ∧
                hostMetadataSyncer se' = (NewSyncer_ (logger se) d x').1
     else tail = [] ∧ hostMetadataSyncer se' = None).
Proof.
  intros Hse Hl. exec Hse Hl.
  all: intros Hres; simplify_eq.
  all: rewrite clientConfig_SyncHostMetadata in *; simpl in *.
  all: match goal with
       | H : NewDimensionClient_ ?o ?x = (?d, _) |- _ =>
           exists o, d, x; eexists; split; [in_calls; reflexivity|]
       end.
  all: repeat split; try done; try congruence.
  all: try by match goal with
              | H : NewDimensionClient_ _ _ = _ |- _ => rewrite H
              end.
  all: match goal with
       | H : NewSyncer_ _ _ ?x = _ |- _ => exists x; by rewrite H
       end.
Qed.

(** A [start] that does not return a nil error constructs nothing and leaves
    the exporter as it was. *)
Lemma start_not_ok_calls (se : signalfxExporter) (host : Host) (w : World)
    (l : positive) (c : Config) :
  config se = addr l → heap w !! l = Some c →
  (∀ se', result (start se host w) ≠ Some (None, se')) →
  (∀ o, EvNewDimensionClient o ∉ calls w (start se host w)) ∧
  (∀ d, EvDimensionClientStart d ∉ calls w (start se host w)) ∧
  (∀ lg d, EvNewSyncer lg d ∉ calls w (start se host w)) ∧
  (∀ r, result (start se host w) = Some r → r.2 = se).
Proof.
  intros Hse Hl. exec Hse Hl.
  all: intros Hres; try (by destruct (Hres _ eq_refl)).
  all: repeat split; try (intros ?; intros; in_calls; intros Hin; pick_call).
  all: intros r Hr; by simplify_eq.
Qed.

(** [start] returns a nil error whenever the packages it calls do and the
    pointers it dereferences are set. *)
Lemma start_succeeds (se : signalfxExporter) (host : Host) (w : World)
    (l : positive) (c : Config) :
  config se = addr l → heap w !! l = Some c →
  let c2 := clientConfig (set_Headers None c) in
  let opts := getOptionsFromConfig_ c (ext w) in
  let client := ToClient_ c2 host (telemetrySettings se) opts.2 in
  let tls := LoadTLSConfig_ (APITLSSettings c2) client.2 in
  is_Some opts.1.1 → opts.1.2 = None → client.1.2 = None → tls.1.2 = None →
  is_Some (converter se) →
  ∃ se', result (start se host w) = Some (None, se').
Proof.
  intros Hse Hl. exec Hse Hl.
  all: intros [? ?] ? ? ? [? ?]; simplify_eq; by eexists.
Qed.

(** The state, the calls and the dimension client of a [start] that returns
    a nil error. *)
Lemma start_ok_state (se se' : signalfxExporter) (host : Host) (w : World)
    (l : positive) (c : Config) :
  config se = addr l → heap w !! l = Some c →
  result (start se host w) = Some (None, se') →
  let c2 := clientConfig (set_Headers None c) in
  let opts := getOptionsFromConfig_ c (ext w) in
  let client := ToClient_ c2 host (telemetrySettings se) opts.2 in
  let tls := LoadTLSConfig_ (APITLSSettings c2) client.2 in
  ∃ options conv,
    opts.1 = (Some options, None) ∧ converter se = Some conv ∧
    let o := dimensionClientOptions se options tls.1.1 conv in
    let built := NewDimensionClient_ o tls.2 in
    let launched := DimensionClientStart_ built.1 built.2 in
    calls w (start se host w) =
      [EvGetOptionsFromConfig c; EvToClient c2 host (telemetrySettings se);
       EvLoadTLSConfig (APITLSSettings c2); EvNewDimensionClient o;
       EvDimensionClientStart built.1] ++
      (if SyncHostMetadata c then [EvNewSyncer (logger se) built.1] else []) ∧
    pushMetadata se' = Some built.1 ∧
    ext (final (start se host w)) =
      if SyncHostMetadata c
      then (NewSyncer_ (logger se) built.1 launched.2).2
      else launched.2.
Proof.
  intros Hse Hl. exec Hse Hl.
  all: intros Hres; simplify_eq.
  all: rewrite clientConfig_SyncHostMetadata in *; simpl in *.
  all: try congruence.
  all: eexists _, _; split; [reflexivity|]; split; [reflexivity|]; simpl.
  all: repeat match goal with
              | H : ?f = (_, _) |- context [?f] => rewrite H; simpl
              end.
  all: split; [in_calls; reflexivity|]; by split.
Qed.

(** C6 (amended). [start] constructs the Metadata Update Coordinator (the
    dimension client) with a fixed flush interval on a 10-second scale
    ([SendDelay = 10]) and a bounded pending capacity
    ([PropertiesMaxBuffered = 10000]); both are constants of [start], the
    same for every config, not values supplied by the configuration. It
    constructs it only after [getOptionsFromConfig] has accepted the config,
    and launches its background flush loop at that point: [Start] is run on
    the very client that [NewDimensionClient] returned, on the state that
    the construction left, before anything else, and that client is the one
    [pushMetadata] is bound to; launched, the coordinator of these options
    is running with capacity 10000 and a flush interval of 10000 ms, and its
    ticks flush. A [start] that returns a nil error has done all this, and
    [start] returns a nil error whenever the packages it calls do. *)
Theorem start_dimension_client_settings (choice : Coordinator.Misuse)
    (se : signalfxExporter) (host : Host)
    (w : World) (l : positive) (c : Config) :
  config se = addr l → heap w !! l = Some c →
  let run := start se host w in
  let c2 := clientConfig (set_Headers None c) in
  let opts := getOptionsFromConfig_ c (ext w) in
  let client := ToClient_ c2 host (telemetrySettings se) opts.2 in
  let tls := LoadTLSConfig_ (APITLSSettings c2) client.2 in
  (∀ o, EvNewDimensionClient o ∈ calls w run →
     let built := NewDimensionClient_ o tls.2 in
     let launched := DimensionClientStart_ built.1 built.2 in
     let co := coordinatorOf o in
     SendDelay o = 10%Z ∧ PropertiesMaxBuffered o = 10000%Z ∧
     opts.1.2 = None ∧
     calls w run =
       [EvGetOptionsFromConfig c; EvToClient c2 host (telemetrySettings se);
        EvLoadTLSConfig (APITLSSettings c2); EvNewDimensionClient o;
        EvDimensionClientStart built.1] ++
       (if SyncHostMetadata c then [EvNewSyncer (logger se) built.1] else []) ∧
     (∃ se', result run = Some (None, se') ∧ pushMetadata se' = Some built.1) ∧
     ext (final run) =
       (if SyncHostMetadata c
        then (NewSyncer_ (logger se) built.1 launched.2).2
        else launched.2) ∧
     Coordinator.capacity co = Z.to_nat 10000 ∧
     Coordinator.flushIntervalMs co = 10000%N ∧
     Coordinator.start choice co =
       (Coordinator.Ok tt, Coordinator.with_phase Coordinator.Running co) ∧
     ∀ sent, Coordinator.tick sent (Coordinator.start choice co).2 =
             Coordinator.flush sent (Coordinator.start choice co).2) ∧
  (∀ se', result run = Some (None, se') →
     ∃ o, EvNewDimensionClient o ∈ calls w run) ∧
  (is_Some opts.1.1 → opts.1.2 = None → client.1.2 = None → tls.1.2 = None →
   is_Some (converter se) →
   ∃ se', result run = Some (None, se')).
Proof.
  intros Hse Hl. simpl. split; [|split].
  - intros o Hin.
    assert (Hnot : ¬ ∀ se'', result (start se host w) ≠ Some (None, se'')).
    { intros Hno.
      destruct (start_not_ok_calls se host w l c Hse Hl Hno) as [Hn _].
      exact (Hn o Hin). }
    destruct (result (start se host w)) as [[[e|] se']|] eqn:Hres.
    + destruct Hnot. congruence.
    + destruct (start_ok_state se se' host w l c Hse Hl Hres)
        as (options & conv & Hopts & Hconv & Hcalls & Hmeta & Hext).
      simpl in Hcalls, Hmeta, Hext.
      assert (o = dimensionClientOptions se options
                    (LoadTLSConfig_ (APITLSSettings (clientConfig (set_Headers None c)))
                       (ToClient_ (clientConfig (set_Headers None c)) host
                          (telemetrySettings se)
                          (getOptionsFromConfig_ c (ext w)).2).2).1.1 conv) as ->.
      { rewrite Hcalls in Hin. clear Hcalls Hext Hmeta.
        destruct (SyncHostMetadata c).
        all: rewrite ?elem_of_app, ?elem_of_cons, ?elem_of_nil in Hin.
        all: pick_call; reflexivity. }
      split; [reflexivity|]. split; [reflexivity|].
      split; [by rewrite Hopts|].
      split; [exact Hcalls|].
      split; [by exists se'|].
      split; [exact Hext|].
      repeat split.
    + destruct Hnot. congruence.
  - intros se' Hres.
    destruct (start_ok_calls se se' host w l c Hse Hl Hres)
      as (o & d & x & tail & Hcalls & _).
    exists o. rewrite Hcalls. set_solver.
  - apply (start_succeeds se host w l c Hse Hl).
Qed.

(** Both constructors leave the syncer nil. *)
Lemma constructors_leave_no_syncer (p : ptr) (cs : CreateSettings) (w : World)
    (se : signalfxExporter) (e : error) :
  result (newSignalFxExporter p cs w) = Some (Some se, e) ∨
  result (newEventExporter p cs w) = Some (Some se, e) →
  hostMetadataSyncer se = None.
Proof.
  unfold newSignalFxExporter, newEventExporter, call, load, deref, panic.
  unfold mbind, M_bind, mret, M_ret.
  destruct p as [|l]; simpl; [intros [?|?]; simplify_eq|].
  repeat (match goal with
          | |- context [match ?x with _ => _ end] =>
              lazymatch x with
              | context [match _ with _ => _ end] => fail
              | _ => destruct x eqn:?
              end
          end; simpl).
  all: intros [?|?]; by simplify_eq.
Qed.

(** Without a syncer, [pushMetrics] calls neither [Sync] nor [PushMetadata]. *)
Lemma pushMetrics_no_syncer (se : signalfxExporter) (ctx : Context_)
    (md : Metrics) (w : World) :
  hostMetadataSyncer se = None →
  (∀ s m, EvSync s m ∉ calls w (pushMetrics se ctx md w)) ∧
  (∀ d m, EvPushMetadata d m ∉ calls w (pushMetrics se ctx md w)).
Proof.
  intros Hnone. destruct (pushMetricsData se) as [dp|] eqn:Hdp.
  - rewrite (pushMetrics_run _ _ _ _ dp Hdp), Hnone.
    destruct (pushMetricsData_ dp ctx md (ext w)) as [[dropped [e|]] x].
    all: split; intros ? ?; in_calls; intros Hin; pick_call.
  - unfold pushMetrics, deref, panic. unfold mbind, M_bind. rewrite Hdp.
    split; intros ? ?; unfold calls; simpl; rewrite drop_all; apply not_elem_of_nil.
Qed.

(** C9. Host metadata sync is gated on the config: when [SyncHostMetadata]
    is false, [start] never constructs a syncer; an exporter that came from
    a constructor, or whose [start] returned a nil error, has a nil
    [hostMetadataSyncer] afterwards, and no [pushMetrics] on it calls [Sync]
    or [PushMetadata], whatever dispatch answers. *)
Theorem no_sync_without_SyncHostMetadata (se : signalfxExporter) (host : Host)
    (w : World) (l : positive) (c : Config) :
  config se = addr l → heap w !! l = Some c →
  SyncHostMetadata c = false →
  let run := start se host w in
  (∀ lg d, EvNewSyncer lg d ∉ calls w run) ∧
  (∀ p cs w0 e, result (newSignalFxExporter p cs w0) = Some (Some se, e) →
                hostMetadataSyncer se = None) ∧
  (∀ err se', result run = Some (err, se') →
     err = None ∨ hostMetadataSyncer se = None →
     hostMetadataSyncer se' = None ∧
     ∀ ctx md w',
       (∀ s m, EvSync s m ∉ calls w' (pushMetrics se' ctx md w')) ∧
       (∀ d m, EvPushMetadata d m ∉ calls w' (pushMetrics se' ctx md w'))).
Proof.
  intros Hse Hl Hsync. simpl.
  assert (Hafter : ∀ err se', result (start se host w) = Some (err, se') →
    err = None ∨ hostMetadataSyncer se = None → hostMetadataSyncer se' = None).
  { intros [e|] se' Hres Hor.
    - destruct Hor as [?|Hnone]; [done|].
      destruct (start_not_ok_calls se host w l c Hse Hl) as (_ & _ & _ & Hsame).
      { intros se''. rewrite Hres. congruence. }
      specialize (Hsame _ Hres). simpl in Hsame. by subst se'.
    - destruct (start_ok_calls se se' host w l c Hse Hl Hres)
        as (o & d & x & tail & _ & _ & _ & _ & _ & _ & Htail).
      rewrite Hsync in Htail. by destruct Htail. }
  split; [|split].
  - intros lg d Hin.
    destruct (result (start se host w)) as [[[e|] se']|] eqn:Hres.
    + destruct (start_not_ok_calls se host w l c Hse Hl) as (_ & _ & Hn & _).
      { intros se''. rewrite Hres. congruence. }
      exact (Hn lg d Hin).
    + destruct (start_ok_calls se se' host w l c Hse Hl Hres)
        as (o & d' & x & tail & Hcalls & _ & _ & _ & _ & _ & Htail).
      rewrite Hsync in Htail. destruct Htail as [-> _].
      rewrite Hcalls, app_nil_r in Hin.
      rewrite ?elem_of_cons, ?elem_of_nil in Hin. pick_call.
    + destruct (start_not_ok_calls se host w l c Hse Hl) as (_ & _ & Hn & _).
      { intros se''. rewrite Hres. congruence. }
      exact (Hn lg d Hin).
  - intros p cs w0 e Hnew. eapply constructors_leave_no_syncer. by left.
  - intros err se' Hres Hor. split; [by eapply Hafter|].
    intros ctx md w'. apply pushMetrics_no_syncer. by eapply Hafter.
Qed.

End Properties.

(** ** The coordinator: the bound on pending updates *)

Section CoordinatorProperties.
Variable choice : Coordinator.Misuse.

Lemma new_bounded (cap : nat) (interval : N) :
  Coordinator.bounded (Coordinator.new cap interval).
Proof. unfold Coordinator.bounded. simpl. rewrite map_size_empty. lia. Qed.

Lemma flush_bounded (sent : bool) (st : Coordinator.State) :
  Coordinator.bounded (Coordinator.flush sent st).
Proof. unfold Coordinator.bounded. simpl. rewrite map_size_empty. lia. Qed.

Lemma enqueue_bounded (u : Coordinator.PropertyUpdate) (st : Coordinator.State) :
  Coordinator.bounded st →
  Coordinator.bounded (Coordinator.enqueue choice u st).2.
Proof.
  unfold Coordinator.bounded, Coordinator.enqueue. intros Hb.
  destruct (Coordinator.phase st); simpl; try done.
  all: destruct (Coordinator.pending st !! Coordinator.resourceKey u) eqn:Hk; simpl.
  all: try (rewrite map_size_insert_Some by (by eexists); done).
  all: case_decide; simpl; try done.
  all: rewrite map_size_insert_None by done; lia.
Qed.

Lemma step_bounded (op : Coordinator.Op) (st : Coordinator.State) :
  Coordinator.bounded st → Coordinator.bounded (Coordinator.step choice st op).
Proof.
  intros Hb. destruct op as [|sent|u|sent]; simpl.
  - unfold Coordinator.start. by destruct (Coordinator.phase st).
  - unfold Coordinator.stop.
    destruct (Coordinator.phase st); simpl; try done.
    all: apply (flush_bounded sent st).
  - by apply enqueue_bounded.
  - unfold Coordinator.tick.
    destruct (Coordinator.phase st); try done. apply flush_bounded.
Qed.

Lemma step_capacity (op : Coordinator.Op) (st : Coordinator.State) :
  Coordinator.capacity (Coordinator.step choice st op) = Coordinator.capacity st.
Proof.
  destruct op as [|sent|u|sent]; simpl.
  - unfold Coordinator.start. by destruct (Coordinator.phase st).
  - unfold Coordinator.stop. by destruct (Coordinator.phase st).
  - unfold Coordinator.enqueue.
    destruct (Coordinator.phase st); simpl; try done.
    all: destruct (Coordinator.pending st !! Coordinator.resourceKey u); simpl; try done.
    all: by case_decide.
  - unfold Coordinator.tick. by destruct (Coordinator.phase st).
Qed.

Lemma run_bounded (ops : list Coordinator.Op) (st : Coordinator.State) :
  Coordinator.bounded st → Coordinator.bounded (Coordinator.run choice ops st).
Proof.
  revert st. induction ops as [|op ops IH]; intros st Hb; simpl; [done|].
  apply IH. by apply step_bounded.
Qed.

Lemma run_capacity (ops : list Coordinator.Op) (st : Coordinator.State) :
  Coordinator.capacity (Coordinator.run choice ops st) = Coordinator.capacity st.
Proof.
  revert st. induction ops as [|op ops IH]; intros st; simpl; [done|].
  by rewrite IH, step_capacity.
Qed.

(** C8. In every state a coordinator can reach, [pending] holds at most
    [capacity] entries. An [enqueue] on a coordinator that has not been
    stopped, for a key that is not pending, when [pending] is full, returns
    false, adds one to the rejected counter and leaves [pending] as it was;
    and no [enqueue] at all removes a pending key: entries under other keys
    are untouched and an entry under the update's own key is coalesced, not
    dropped. *)
Theorem pending_bounded_and_never_evicted (cap : nat) (interval : N)
    (ops : list Coordinator.Op) (u : Coordinator.PropertyUpdate) :
  let st := Coordinator.run choice ops (Coordinator.new cap interval) in
  let after := Coordinator.enqueue choice u st in
  size (Coordinator.pending st) ≤ cap ∧
  size (Coordinator.pending after.2) ≤ cap ∧
  (Coordinator.phase st ≠ Coordinator.Stopped →
   Coordinator.pending st !! Coordinator.resourceKey u = None →
   cap ≤ size (Coordinator.pending st) →
     after.1 = Coordinator.Ok false ∧
     Coordinator.rejected after.2 = S (Coordinator.rejected st) ∧
     Coordinator.pending after.2 = Coordinator.pending st) ∧
  (∀ k e, k ≠ Coordinator.resourceKey u →
     Coordinator.pending st !! k = Some e →
     Coordinator.pending after.2 !! k = Some e) ∧
  (∀ old, Coordinator.pending st !! Coordinator.resourceKey u = Some old →
     Coordinator.phase st ≠ Coordinator.Stopped →
     Coordinator.pending after.2 !! Coordinator.resourceKey u =
       Some (Coordinator.coalesce old u)).
Proof.
  simpl.
  set (st := Coordinator.run choice ops (Coordinator.new cap interval)).
  assert (Hcap : Coordinator.capacity st = cap) by apply run_capacity.
  assert (Hb : Coordinator.bounded st) by apply run_bounded, new_bounded.
  assert (Hb' : Coordinator.bounded (Coordinator.enqueue choice u st).2)
    by by apply enqueue_bounded.
  assert (Hcap' : Coordinator.capacity (Coordinator.enqueue choice u st).2 = cap).
  { rewrite <- Hcap. apply (step_capacity (Coordinator.OpEnqueue u)). }
  unfold Coordinator.bounded in Hb, Hb'. rewrite Hcap in Hb. rewrite Hcap' in Hb'.
  split; [done|]. split; [done|].
  unfold Coordinator.enqueue. split; [|split].
  - intros Hph Hnew Hfull. rewrite Hnew.
    destruct (Coordinator.phase st); try done.
    all: rewrite decide_True by lia; done.
  - intros k e Hne Hk.
    destruct (Coordinator.phase st); simpl; try done.
    all: destruct (Coordinator.pending st !! Coordinator.resourceKey u); simpl.
    all: try case_decide; simpl; try done.
    all: by rewrite lookup_insert_ne.
  - intros old Hold Hph. rewrite Hold.
    destruct (Coordinator.phase st); simpl; try done.
    all: by rewrite lookup_insert_eq.
Qed.

End CoordinatorProperties.


(** * Concrete runs *)

Section Runs.
Import Fixture.

Lemma pushMetrics_dispatch_then_sync_witness :
  let se := running (Some 3) in
  let w := world (cfg "tok" None true 0) (accepting 2) in
  pushMetricsData se = Some dpClient ∧
  result (pushMetrics se tt ["cpu"] w) = Some None ∧
  calls w (pushMetrics se tt ["cpu"] w) =
    [EvPushMetricsData dpClient tt ["cpu"]; EvSync 3 ["cpu"]] ∧
  synced (ext (final (pushMetrics se tt ["cpu"] w))) = 1.
Proof.
  simpl. split; [reflexivity|].
  pose proof (pushMetrics_dispatch_then_sync (running (Some 3)) tt ["cpu"]
                (world (cfg "tok" None true 0) (accepting 2)) dpClient eq_refl) as H.
  simpl in H. destruct H as (Hres & Hcalls & _ & Hext & _).
  split; [exact Hres|]. split; [exact Hcalls|].
  exact (f_equal synced Hext).
Defined.

Lemma sync_only_after_successful_dispatch_witness :
  let se := running (Some 3) in
  let w := world (cfg "tok" None true 0) (failing 1 (foreign_error 503)) in
  pushMetricsData se = Some dpClient ∧
  calls w (pushMetrics se tt ["cpu"] w) = [EvPushMetricsData dpClient tt ["cpu"]] ∧
  result (pushMetrics se tt ["cpu"] w) = Some (Some (foreign_error 503)).
Proof.
  simpl. split; [reflexivity|].
  pose proof (sync_only_after_successful_dispatch (running (Some 3)) tt ["cpu"]
                (world (cfg "tok" None true 0) (failing 1 (foreign_error 503)))
                dpClient eq_refl) as H.
  simpl in H. destruct H as (Hfail & _ & Hres).
  split; [|exact Hres]. apply Hfail. discriminate.
Defined.

(** The push functions do not report the dropped count upward (against C3):
    on the metrics exporter that [start] builds and on the logs exporter
    that [startLogs] builds, with a backend that drops nothing and with one
    that drops seven records, both without error, [pushMetrics] and
    [pushLogs] return the same value. *)
Lemma dropped_count_not_reported :
  let w := world cfgTeam (accepting 0) in
  let w' := world cfgTeam (accepting 7) in
  let metrics := started fresh (wiredDPClient teamHeaders) 7 (Some 7) in
  let logs := startedLogs freshEvents (wiredEventClient teamHeaders) in
  result (start fresh tt w) = Some (None, metrics) ∧
  result (startLogs freshEvents tt w) = Some (None, logs) ∧
  (pushMetricsData_ (wiredDPClient teamHeaders) tt ["cpu"] (accepting 0)).1.1 = 0%Z ∧
  (pushMetricsData_ (wiredDPClient teamHeaders) tt ["cpu"] (accepting 7)).1.1 = 7%Z ∧
  (pushLogsData_ (wiredEventClient teamHeaders) tt ["started"] (accepting 0)).1.1 = 0%Z ∧
  (pushLogsData_ (wiredEventClient teamHeaders) tt ["started"] (accepting 7)).1.1 = 7%Z ∧
  result (pushMetrics metrics tt ["cpu"] w) = Some None ∧
  result (pushMetrics metrics tt ["cpu"] w') = Some None ∧
  result (pushLogs logs tt ["started"] w) = Some None ∧
  result (pushLogs logs tt ["started"] w') = Some None.
Proof.
  simpl. split; [vm_compute; reflexivity|]. split; [vm_compute; reflexivity|].
  repeat split.
Qed.

Lemma push_returns_error_only_witness :
  let w := world cfgTeam (accepting 0) in
  let w' := world cfgTeam (accepting 7) in
  let metrics := started fresh (wiredDPClient teamHeaders) 7 (Some 7) in
  let logs := startedLogs freshEvents (wiredEventClient teamHeaders) in
  (result (start fresh tt w) = Some (None, metrics) ∧
   result (startLogs freshEvents tt w) = Some (None, logs)) ∧
  result (pushMetrics metrics tt ["cpu"] w) =
    result (pushMetrics metrics tt ["cpu"] w') ∧
  result (pushLogs logs tt ["started"] w) =
    result (pushLogs logs tt ["started"] w').
Proof.
  simpl. split; [split; vm_compute; reflexivity|].
  destruct (push_returns_error_only
              (started fresh (wiredDPClient teamHeaders) 7 (Some 7))
              tt ["cpu"] ["started"]
              (world cfgTeam (accepting 0)) (world cfgTeam (accepting 7)))
    as (Hm & _).
  destruct (push_returns_error_only
              (startedLogs freshEvents (wiredEventClient teamHeaders))
              tt ["cpu"] ["started"]
              (world cfgTeam (accepting 0)) (world cfgTeam (accepting 7)))
    as (_ & Hl).
  destruct (Hm (wiredDPClient teamHeaders) eq_refl) as (_ & Hsame).
  destruct (Hl (wiredEventClient teamHeaders) eq_refl) as (_ & Hsame').
  split; [exact (Hsame eq_refl)|exact (Hsame' eq_refl)].
Defined.

Lemma pushLogs_dispatch_only_witness :
  let se := running (Some 3) in
  let w := world (cfg "tok" None true 0) (accepting 0) in
  pushLogsData se = Some eventClient ∧
  result (pushLogs se tt ["started"] w) = Some None ∧
  calls w (pushLogs se tt ["started"] w) = [EvPushLogsData eventClient tt ["started"]].
Proof.
  simpl. split; [reflexivity|].
  pose proof (pushLogs_dispatch_only (running (Some 3)) tt ["started"]
                (world (cfg "tok" None true 0) (accepting 0)) eventClient eq_refl) as H.
  simpl in H. destruct H as (Hres & Hcalls & _). split; [exact Hres|exact Hcalls].
Defined.



Lemma buildHeaders_clears_config_headers_witness :
  let c := cfg "tok" (Some {[ "X-Team" := "obs" ]}) false 0 in
  let w := world c (accepting 0) in
  heap w !! 1%positive = Some c ∧
  ∃ hs w' c',
    buildHeaders (addr 1) w = Returned hs w' ∧
    heap w' !! 1%positive = Some c' ∧
    Headers (cfgHTTPClientSettings c') = None ∧
    hs !! "X-Team" = Some "obs".
Proof.
  simpl. split; [reflexivity|].
  destruct (buildHeaders_clears_config_headers 1
              (cfg "tok" (Some {[ "X-Team" := "obs" ]}) false 0)
              (world (cfg "tok" (Some {[ "X-Team" := "obs" ]}) false 0)
                     (accepting 0)) eq_refl)
    as (hs & w' & c' & Hrun & Hheap & Hnil & Hcustom & _).
  exists hs, w', c'.
  split; [exact Hrun|]. split; [exact Hheap|]. split; [exact Hnil|].
  apply Hcustom. reflexivity.
Defined.

(** The flush interval and the capacity are not supplied by the
    configuration (against C6): two configs that differ in every field that could
    carry them make [start] construct the dimension client with the same
    two literals. *)
Lemma start_settings_not_from_config :
  let cA := cfg "tokA" None false 0 in
  let cB := cfg "tokB" (Some {[ "X-Flush-Interval" := "1" ]}) true 99 in
  let wA := world cA (accepting 0) in
  let wB := world cB (accepting 0) in
  cfgRest cA ≠ cfgRest cB ∧
  constructed (calls wA (start fresh tt wA)) = [(10, 10000)%Z] ∧
  constructed (calls wB (start fresh tt wB)) = [(10, 10000)%Z].
Proof. simpl. split; [discriminate|]. split; reflexivity. Qed.

Lemma start_dimension_client_settings_witness :
  let c := cfg "tok" None true 0 in
  let w := world c (accepting 0) in
  let o := dimensionClientOptions fresh options "api-tls" tt in
  (config fresh = addr 1 ∧ heap w !! 1%positive = Some c ∧
   EvNewDimensionClient o ∈ calls w (start fresh tt w)) ∧
  calls w (start fresh tt w) =
    [EvGetOptionsFromConfig c;
     EvToClient (clientConfig (set_Headers None c)) tt tt;
     EvLoadTLSConfig "api-tls"; EvNewDimensionClient o;
     EvDimensionClientStart 7; EvNewSyncer tt 7] ∧
  (∃ se', result (start fresh tt w) = Some (None, se') ∧ pushMetadata se' = Some 7) ∧
  launched (ext (final (start fresh tt w))) = [7].
Proof.
  assert (Hin : EvNewDimensionClient (dimensionClientOptions fresh options "api-tls" tt)
                ∈ calls (world (cfg "tok" None true 0) (accepting 0))
                    (start fresh tt (world (cfg "tok" None true 0) (accepting 0)))).
  { assert (calls (world (cfg "tok" None true 0) (accepting 0))
              (start fresh tt (world (cfg "tok" None true 0) (accepting 0))) =
            [EvGetOptionsFromConfig (cfg "tok" None true 0);
             EvToClient (clientConfig (set_Headers None (cfg "tok" None true 0))) tt tt;
             EvLoadTLSConfig "api-tls";
             EvNewDimensionClient (dimensionClientOptions fresh options "api-tls" tt);
             EvDimensionClientStart 7; EvNewSyncer tt 7]) as ->
      by (vm_compute; reflexivity).
    rewrite !elem_of_cons. auto 10. }
  simpl. split; [by repeat split|].
  destruct (start_dimension_client_settings Coordinator.NoOp fresh tt
              (world (cfg "tok" None true 0) (accepting 0)) 1
              (cfg "tok" None true 0) eq_refl eq_refl) as (Hbuilt & _ & _).
  destruct (Hbuilt _ Hin) as (_ & _ & _ & Hcalls & Hmeta & Hext & _).
  split; [exact Hcalls|]. split; [exact Hmeta|].
  exact (f_equal launched Hext).
Defined.

Lemma no_sync_without_SyncHostMetadata_witness :
  let c := cfg "tok" None false 0 in
  let w := world c (accepting 0) in
  (config fresh = addr 1 ∧ heap w !! 1%positive = Some c ∧
   SyncHostMetadata c = false) ∧
  ∀ lg d, EvNewSyncer lg d ∉ calls w (start fresh tt w).
Proof.
  simpl. split; [by repeat split|].
  pose proof (no_sync_without_SyncHostMetadata fresh tt
                (world (cfg "tok" None false 0) (accepting 0)) 1
                (cfg "tok" None false 0) eq_refl eq_refl eq_refl) as H.
  simpl in H. destruct H as (Hnew & _). exact Hnew.
Defined.

Lemma pending_bounded_and_never_evicted_witness :
  let ops := [Coordinator.OpStart; Coordinator.OpEnqueue host1] in
  let st := Coordinator.run Coordinator.NoOp ops (Coordinator.new 1 10000%N) in
  (Coordinator.phase st ≠ Coordinator.Stopped ∧
   Coordinator.pending st !! "h2" = None ∧
   1 ≤ size (Coordinator.pending st)) ∧
  (Coordinator.enqueue Coordinator.NoOp host2 st).1 = Coordinator.Ok false ∧
  Coordinator.pending (Coordinator.enqueue Coordinator.NoOp host2 st).2 !! "h1" =
    Some host1.
Proof.
  pose proof (pending_bounded_and_never_evicted Coordinator.NoOp 1 10000%N
                [Coordinator.OpStart; Coordinator.OpEnqueue host1] host2) as H.
  simpl in H. destruct H as (_ & _ & Hfull & Hkeep & _).
  assert (Hph : Coordinator.phase
            (Coordinator.run Coordinator.NoOp
               [Coordinator.OpStart; Coordinator.OpEnqueue host1]
               (Coordinator.new 1 10000%N)) ≠ Coordinator.Stopped) by discriminate.
  simpl. split; [split; [exact Hph|split; [reflexivity|]]|].
  - vm_compute. apply le_n.
  - split.
    + apply (Hfull Hph eq_refl). vm_compute. apply le_n.
    + apply Hkeep; [discriminate|reflexivity].
Defined.

End Runs.

(** * Further properties of [exporter.go]

    The constructors, [createClient], [startLogs], [ConsumeMetadata] and the
    way the functions compose over one shared config. *)

(** Symbolic execution over a heap in which the config pointer is known. *)
Ltac paths Hse Hl :=
  unfold start, startLogs, call, load, store, deref, panic;
  unfold mbind, M_bind, mret, M_ret;
  repeat first
    [ rewrite Hl
    | rewrite Hse
    | rewrite lookup_insert_eq
    | rewrite insert_insert_eq
    | erewrite buildHeaders_run by (first [exact Hl | apply lookup_insert_eq])
    | erewrite createClient_run by (first [exact Hse | exact Hl | apply lookup_insert_eq])
    | progress (unfold call)
    | progress simpl
    | match goal with
      | |- context [match ?x with _ => _ end] =>
          lazymatch x with
          | context [match _ with _ => _ end] => fail
          | _ => destruct x eqn:?
          end
      end ].

(** A field that [clientConfig] does not write. *)
Ltac clientConfig_keeps :=
  unfold clientConfig; simpl;
  repeat match goal with
         | |- context [match ?x with _ => _ end] => destruct x; simpl
         end; reflexivity.

Section Wiring.
Context {F : Foreign} {R : Runtime}.

Lemma clientConfig_AccessTokenPassthrough (c : Config) :
  AccessTokenPassthrough (clientConfig c) = AccessTokenPassthrough c.
Proof. clientConfig_keeps. Qed.

Lemma clientConfig_AccessToken (c : Config) :
  AccessToken (clientConfig c) = AccessToken c.
Proof. clientConfig_keeps. Qed.

(** X8. What a [start] leaves in the config. Once [getOptionsFromConfig]
    has accepted the config, the config behind the pointer is left with nil
    custom headers, with the ingest TLS settings as the client's TLS
    settings and with the three connection settings set, whether [start]
    then succeeds, returns an error from [ToClient] or [LoadTLSConfig], or
    panics; and a [start] that returns an error leaves the exporter's fields
    as they were. *)
Theorem start_config_effects (se : signalfxExporter) (host : Host) (w : World)
    (l : positive) (c : Config) :
  config se = addr l → heap w !! l = Some c →
  let run := start se host w in
  ((getOptionsFromConfig_ c (ext w)).1.2 = None →
   ∃ c', heap (final run) !! l = Some c' ∧
         let h' := cfgHTTPClientSettings c' in
         Headers h' = None ∧
         TLSSetting h' = IngestTLSSettings c' ∧
         is_Some (MaxIdleConns h') ∧
         is_Some (MaxIdleConnsPerHost h') ∧
         is_Some (IdleConnTimeout h')) ∧
  (∀ e se', result run = Some (Some e, se') → se' = se).
Proof.
  intros Hse Hl.
  assert (Hcfg : ∀ c0,
    let h' := cfgHTTPClientSettings (clientConfig (set_Headers None c0)) in
    Headers h' = None ∧
    TLSSetting h' = IngestTLSSettings (clientConfig (set_Headers None c0)) ∧
    is_Some (MaxIdleConns h') ∧ is_Some (MaxIdleConnsPerHost h') ∧
    is_Some (IdleConnTimeout h')).
  { intros [[hd tls mic mich ict rest] ? ? ? ? ? ? ? ? ? ?].
    unfold clientConfig; simpl. destruct mic, mich, ict; simpl.
    all: by repeat split. }
  paths Hse Hl.
  all: split; [|intros ? ? ?; by simplify_eq].
  all: intros Hok; try discriminate.
  all: exists (clientConfig (set_Headers None c)).
  all: by split; [|apply Hcfg].
Qed.

(** X9. The data point client of a started exporter. A [start] that returns
    a nil error binds [pushMetricsData] to a client whose headers are the map
    built from the config as it was before the call, every custom header
    included, whose converter, logger and token passthrough are those of the
    exporter and the config, and whose ingest URL comes from the options;
    the exporter's config pointer, logger, converter and [pushLogsData] are
    left as they were. *)
Theorem start_wires_data_point_client (se se' : signalfxExporter) (host : Host)
    (w : World) (l : positive) (c : Config) :
  config se = addr l → heap w !! l = Some c →
  result (start se host w) = Some (None, se') →
  ∃ dp o,
    pushMetricsData se' = Some dp ∧
    (getOptionsFromConfig_ c (ext w)).1.1 = Some o ∧
    base_headers (dp_base dp) = headersOf c ∧
    (∀ k v, default ∅ (Headers (cfgHTTPClientSettings c)) !! k = Some v →
            base_headers (dp_base dp) !! k = Some v) ∧
    base_ingestURL (dp_base dp) = ingestURL o ∧
    base_zippers (dp_base dp) = newGzipPool ∧
    dp_logDataPoints dp = logDataPoints o ∧
    dp_converter dp = converter se ∧
    dp_logger dp = logger se ∧
    dp_accessTokenPassthrough dp = AccessTokenPassthrough c ∧
    config se' = config se ∧
    logger se' = logger se ∧
    telemetrySettings se' = telemetrySettings se ∧
    converter se' = converter se ∧
    pushLogsData se' = pushLogsData se.
Proof.
  intros Hse Hl. paths Hse Hl.
  all: intros Hres; simplify_eq.
  all: eexists _, _; simpl.
  all: rewrite ?clientConfig_AccessTokenPassthrough; simpl.
  all: repeat split; try done.
  all: intros k v Hk; simpl; unfold headersOf; by rewrite rangeInsert_lookup, Hk.
Qed.

(** What both constructors leave in the exporter they return. *)
Lemma constructors_unstarted (p : ptr) (cs : CreateSettings) (w : World)
    (se : signalfxExporter) (e : error) :
  result (newSignalFxExporter p cs w) = Some (Some se, e) ∨
  result (newEventExporter p cs w) = Some (Some se, e) →
  e = None ∧ p ≠ nilptr ∧ config se = p ∧
  logger se = cs_Logger cs ∧
  telemetrySettings se = cs_TelemetrySettings cs ∧
  pushMetricsData se = None ∧ pushMetadata se = None ∧
  pushLogsData se = None ∧ hostMetadataSyncer se = None.
Proof.
  unfold newSignalFxExporter, newEventExporter, call, load, deref, panic.
  unfold mbind, M_bind, mret, M_ret.
  destruct p as [|l]; simpl; [intros [?|?]; simplify_eq|].
  repeat (match goal with
          | |- context [match ?x with _ => _ end] =>
              lazymatch x with
              | context [match _ with _ => _ end] => fail
              | _ => destruct x eqn:?
              end
          end; simpl).
  all: intros [?|?]; simplify_eq; by repeat split.
Qed.

Lemma newEventExporter_converter (p : ptr) (cs : CreateSettings) (w : World)
    (se : signalfxExporter) (e : error) :
  result (newEventExporter p cs w) = Some (Some se, e) → converter se = None.
Proof.
  unfold newEventExporter, call, load.
  unfold mbind, M_bind, mret, M_ret.
  destruct p as [|l]; simpl; [intros ?; simplify_eq|].
  repeat (match goal with
          | |- context [match ?x with _ => _ end] =>
              lazymatch x with
              | context [match _ with _ => _ end] => fail
              | _ => destruct x eqn:?
              end
          end; simpl).
  all: intros ?; by simplify_eq.
Qed.

(** [start] on a nil or dangling config pointer panics at once. *)
Lemma start_without_config (se : signalfxExporter) (host : Host) (w : World) :
  (∀ l, config se = addr l → heap w !! l = None) →
  start se host w = Panicked w ∧ startLogs se host w = Panicked w.
Proof.
  intros Hnone. unfold start, startLogs, load. unfold mbind, M_bind.
  destruct (config se) as [|l]; [done|]. by rewrite (Hnone l eq_refl).
Qed.

(** X11. [start] needs the converter: on an exporter whose converter is nil,
    such as every exporter [newEventExporter] returns, [start] never returns
    a nil error and never constructs or starts a dimension client, in any
    world. *)
Theorem start_without_converter (se : signalfxExporter) (host : Host) (w : World) :
  converter se = None ∨
  (∃ p cs w0 e, result (newEventExporter p cs w0) = Some (Some se, e)) →
  let run := start se host w in
  (∀ se', result run ≠ Some (None, se')) ∧
  (∀ o, EvNewDimensionClient o ∉ calls w run) ∧
  (∀ d, EvDimensionClientStart d ∉ calls w run).
Proof.
  intros Hor.
  assert (Hconv : converter se = None).
  { destruct Hor as [?|(p & cs & w0 & e & Hnew)]; [done|].
    by eapply newEventExporter_converter. }
  clear Hor. simpl.
  destruct (config se) as [|l] eqn:Hse;
    [|destruct (heap w !! l) as [c|] eqn:Hl].
  - destruct (start_without_config se host w) as [-> _].
    { intros l. by rewrite Hse. }
    repeat split; try done.
    all: intros ?; unfold calls; simpl; rewrite drop_all; apply not_elem_of_nil.
  - assert (Hnever : ∀ se', result (start se host w) ≠ Some (None, se')).
    { paths Hse Hl. all: intros se'; try discriminate. all: congruence. }
    split; [exact Hnever|].
    destruct (start_not_ok_calls se host w l c Hse Hl Hnever) as (Hn & Hs & _).
    by split.
  - destruct (start_without_config se host w) as [-> _].
    { intros l'. rewrite Hse. intros ?. by simplify_eq. }
    repeat split; try done.
    all: intros ?; unfold calls; simpl; rewrite drop_all; apply not_elem_of_nil.
Qed.



(** X2. How the constructors treat what the called packages answer, for a
    valid config pointer. An error of [getOptionsFromConfig] is returned as
    it is by [newSignalFxExporter], which then calls nothing else, and
    wrapped in "failed to process config" by [newEventExporter]; without
    that error [newEventExporter] returns an exporter, whatever the options
    are, and [getOptionsFromConfig] is the only call it makes. An error of
    [NewMetricsConverter] is returned wrapped in "failed to create metric
    converter"; without it [newSignalFxExporter] returns an exporter holding
    the converter. *)
Theorem constructors_propagate_errors (l : positive) (c : Config)
    (cs : CreateSettings) (w : World) :
  heap w !! l = Some c →
  let opts := getOptionsFromConfig_ c (ext w) in
  let metrics := newSignalFxExporter (addr l) cs w in
  let events := newEventExporter (addr l) cs w in
  calls w events = [EvGetOptionsFromConfig c] ∧
  (∀ e, opts.1.2 = Some e →
     result metrics = Some (None, Some e) ∧
     calls w metrics = [EvGetOptionsFromConfig c] ∧
     result events = Some (None, Some (fmt_Errorf_w "failed to process config: " e))) ∧
  (opts.1.2 = None → ∃ se, result events = Some (Some se, None)) ∧
  (∀ o, opts.1 = (Some o, None) →
     let lg := CreateSampledLogger_ (cs_Logger cs) opts.2 in
     let conv := NewMetricsConverter_ lg.1 (metricTranslator o) (ExcludeMetrics c)
                   (IncludeMetrics c) (NonAlphanumericDimensionChars c) lg.2 in
     match conv.1.2 with
     | Some e =>
         result metrics =
           Some (None, Some (fmt_Errorf_w "failed to create metric converter: " e))
     | None =>
         ∃ se, result metrics = Some (Some se, None) ∧ converter se = conv.1.1
     end).
Proof.
  intros Hl. simpl.
  unfold newSignalFxExporter, newEventExporter, call, load, deref, panic.
  unfold mbind, M_bind, mret, M_ret. simpl. rewrite Hl. simpl.
  destruct (getOptionsFromConfig_ c (ext w)) as [[o [e|]] x1]; simpl.
  - repeat split; try done.
    all: try (in_calls; reflexivity).
    all: intros; by simplify_eq.
  - destruct (CreateSampledLogger_ (cs_Logger cs) x1) as [lg x2]; simpl.
    destruct o as [o|]; simpl.
    + rewrite Hl. simpl.
      destruct (NewMetricsConverter_ lg (metricTranslator o) (ExcludeMetrics c)
                  (IncludeMetrics c) (NonAlphanumericDimensionChars c) x2)
        as [[conv [e|]] x3] eqn:Hconv; simpl.
      all: repeat split; try done.
      all: try (in_calls; reflexivity).
      all: try by eexists.
      all: intros o' Ho'; simplify_eq; rewrite Hconv; simpl; try done.
      by eexists.
    + repeat split; try done.
      all: try (in_calls; reflexivity).
      by eexists.
Qed.

(** The fields [start] and [startLogs] leave alone, in any world. *)
Lemma start_frame (se se' : signalfxExporter) (host : Host) (w : World) (err : error) :
  result (start se host w) = Some (err, se') →
  config se' = config se ∧ pushLogsData se' = pushLogsData se ∧
  converter se' = converter se.
Proof.
  destruct (config se) as [|l] eqn:Hse;
    [|destruct (heap w !! l) as [c|] eqn:Hl].
  - destruct (start_without_config se host w) as [-> _]; [|done].
    intros l. by rewrite Hse.
  - paths Hse Hl. all: intros ?; simplify_eq; by rewrite ?Hse.
  - destruct (start_without_config se host w) as [-> _]; [|done].
    intros l'. rewrite Hse. intros ?. by simplify_eq.
Qed.

Lemma startLogs_frame (se se' : signalfxExporter) (host : Host) (w : World)
    (err : error) :
  result (startLogs se host w) = Some (err, se') →
  config se' = config se ∧ pushMetricsData se' = pushMetricsData se ∧
  pushMetadata se' = pushMetadata se ∧
  hostMetadataSyncer se' = hostMetadataSyncer se ∧
  converter se' = converter se.
Proof.
  destruct (config se) as [|l] eqn:Hse;
    [|destruct (heap w !! l) as [c|] eqn:Hl].
  - destruct (start_without_config se host w) as [_ ->]; [|done].
    intros l. by rewrite Hse.
  - paths Hse Hl. all: intros ?; simplify_eq; by rewrite ?Hse.
  - destruct (start_without_config se host w) as [_ ->]; [|done].
    intros l'. rewrite Hse. intros ?. by simplify_eq.
Qed.

Lemma push_nil_panics (se : signalfxExporter) (ctx : Context_) (md : Metrics)
    (ld : Logs) (w : World) :
  (pushMetricsData se = None → pushMetrics se ctx md w = Panicked w) ∧
  (pushLogsData se = None → pushLogs se ctx ld w = Panicked w).
Proof.
  unfold pushMetrics, pushLogs, deref, panic. unfold mbind, M_bind.
  split; by intros ->.
Qed.

(** X3. Pushing before the matching start panics. On an exporter as a
    constructor returns it, [pushMetrics], [pushLogs] and [ConsumeMetadata]
    through its [pushMetadata] panic on the nil function before any call is
    made. [start] does not enable [pushLogs] and [startLogs] does not
    enable [pushMetrics]: each still panics after the other start. *)
Theorem push_before_start_panics (p : ptr) (cs : CreateSettings) (w0 : World)
    (se : signalfxExporter) (e : error) :
  result (newSignalFxExporter p cs w0) = Some (Some se, e) ∨
  result (newEventExporter p cs w0) = Some (Some se, e) →
  ∀ ctx md ld metadata w,
    pushMetrics se ctx md w = Panicked w ∧
    pushLogs se ctx ld w = Panicked w ∧
    ConsumeMetadata {| sme_pushMetadata := pushMetadata se |} metadata w = Panicked w ∧
    (∀ host w1 err se', result (start se host w1) = Some (err, se') →
       pushLogs se' ctx ld w = Panicked w) ∧
    (∀ host w1 err se', result (startLogs se host w1) = Some (err, se') →
       pushMetrics se' ctx md w = Panicked w).
Proof.
  intros Hnew ctx md ld metadata w.
  destruct (constructors_unstarted p cs w0 se e Hnew)
    as (_ & _ & _ & _ & _ & Hm & Hmeta & Hlogs & _).
  split; [by apply (proj1 (push_nil_panics se ctx md ld w))|].
  split; [by apply (proj2 (push_nil_panics se ctx md ld w))|].
  split.
  { unfold ConsumeMetadata, deref, panic. unfold mbind, M_bind. simpl.
    by rewrite Hmeta. }
  split.
  - intros host w1 err se' Hres.
    destruct (start_frame se se' host w1 err Hres) as (_ & Hkeep & _).
    apply (proj2 (push_nil_panics se' ctx md ld w)). by rewrite Hkeep.
  - intros host w1 err se' Hres.
    destruct (startLogs_frame se se' host w1 err Hres) as (_ & Hkeep & _).
    apply (proj1 (push_nil_panics se' ctx md ld w)). by rewrite Hkeep.
Qed.

(** X6. [startLogs] wires the event client and nothing else. It never loads
    the API TLS config and never constructs or starts a dimension client or
    a syncer. An error of [getOptionsFromConfig] comes back wrapped in
    "failed to process config" and an error of [ToClient] as it is, the
    exporter unchanged in both cases. Otherwise, with options present,
    [startLogs] returns a nil error and binds [pushLogsData] to a client
    whose headers are the map built from the config as it was, leaving the
    other fields of the exporter as they were. *)
Theorem startLogs_wires_event_client (se : signalfxExporter) (host : Host)
    (w : World) (l : positive) (c : Config) :
  config se = addr l → heap w !! l = Some c →
  let run := startLogs se host w in
  let c2 := clientConfig (set_Headers None c) in
  let opts := getOptionsFromConfig_ c (ext w) in
  let client := ToClient_ c2 host (telemetrySettings se) opts.2 in
  (∀ ev, ev ∈ calls w run →
     ev = EvGetOptionsFromConfig c ∨ ev = EvToClient c2 host (telemetrySettings se)) ∧
  (∀ e, opts.1.2 = Some e →
     run = Returned (Some (fmt_Errorf_w "failed to process config: " e), se)
             {| heap := heap w; ext := opts.2;
                trace := trace w ++ [EvGetOptionsFromConfig c] |}) ∧
  (∀ e, opts.1.2 = None → client.1.2 = Some e → result run = Some (Some e, se)) ∧
  (∀ o, opts.1 = (Some o, None) → client.1.2 = None →
     ∃ se' ec,
       result run = Some (None, se') ∧
       pushLogsData se' = Some ec ∧
       base_headers (ev_base ec) = headersOf c ∧
       base_ingestURL (ev_base ec) = ingestURL o ∧
       base_client (ev_base ec) = client.1.1 ∧
       ev_logger ec = logger se ∧
       ev_accessTokenPassthrough ec = AccessTokenPassthrough c ∧
       pushMetricsData se' = pushMetricsData se ∧
       pushMetadata se' = pushMetadata se ∧
       hostMetadataSyncer se' = hostMetadataSyncer se ∧
       converter se' = converter se ∧
       config se' = config se).
Proof.
  intros Hse Hl. paths Hse Hl.
  all: split; [intros ev; in_calls; intros Hin; pick_call; auto|].
  all: repeat split; try done.
  all: try (intros; simplify_eq; done).
  all: intros o' ? ?; simplify_eq; eexists _, _; simpl.
  all: rewrite ?clientConfig_AccessTokenPassthrough; simpl.
  all: by repeat split.
Qed.

(** X4. What [createClient] does to the config. It copies the ingest TLS
    settings over the HTTP client's TLS settings, whatever was there, and
    fills [MaxIdleConns], [MaxIdleConnsPerHost] and [IdleConnTimeout] only
    where they are nil: with the address of the config's own
    [MaxConnections] for the first two and with thirty seconds for the
    third; a value that was set is kept. It writes the result through the
    pointer before calling [ToClient] on exactly that config, so the write
    stays when [ToClient] fails. Custom headers and every field outside the
    HTTP client settings are as before. *)
Theorem createClient_defaults (se : signalfxExporter) (host : Host) (w : World)
    (l : positive) (c : Config) :
  config se = addr l → heap w !! l = Some c →
  let run := createClient se host w in
  ∃ c',
    heap (final run) = <[l := c']> (heap w) ∧
    calls w run = [EvToClient c' host (telemetrySettings se)] ∧
    result run = Some (ToClient_ c' host (telemetrySettings se) (ext w)).1 ∧
    let h := cfgHTTPClientSettings c in
    let h' := cfgHTTPClientSettings c' in
    TLSSetting h' = IngestTLSSettings c ∧
    MaxIdleConns h' = Some (default AddrOf_MaxConnections (MaxIdleConns h)) ∧
    MaxIdleConnsPerHost h' =
      Some (default AddrOf_MaxConnections (MaxIdleConnsPerHost h)) ∧
    IdleConnTimeout h' = Some (default 30000000000%Z (IdleConnTimeout h)) ∧
    Headers h' = Headers h ∧
    httpRest h' = httpRest h ∧
    with_HTTPClientSettings h c' = c.
Proof.
  intros Hse Hl. exists (clientConfig c).
  rewrite (createClient_run se host w l c Hse Hl). unfold call. simpl.
  destruct (ToClient_ (clientConfig c) host (telemetrySettings se) (ext w))
    as [r x] eqn:Hto. simpl.
  split; [reflexivity|]. split; [in_calls; reflexivity|]. split; [reflexivity|].
  destruct c as [[hd tls mic mich ict rest] ? ? ? ? ? ? ? ? ? ?].
  unfold clientConfig; simpl.
  destruct mic, mich, ict; simpl; by repeat split.
Qed.

(** X5. [createClient] settles the config: run a second time on the same
    exporter it hands [ToClient] the same config as the first time and
    leaves the heap as the first run left it. *)
Theorem createClient_twice (se : signalfxExporter) (host : Host) (w : World)
    (l : positive) (c : Config) :
  config se = addr l → heap w !! l = Some c →
  let first := createClient se host w in
  let second := createClient se host (final first) in
  heap (final second) = heap (final first) ∧
  calls w first = calls (final first) second.
Proof.
  intros Hse Hl. simpl.
  rewrite (createClient_run se host w l c Hse Hl). unfold call. simpl.
  destruct (ToClient_ (clientConfig c) host (telemetrySettings se) (ext w))
    as [r x] eqn:Hto. simpl.
  rewrite (createClient_run se host _ l (clientConfig c) Hse)
    by apply lookup_insert_eq.
  assert (Hidem : clientConfig (clientConfig c) = clientConfig c).
  { destruct c as [[hd tls mic mich ict rest] ? ? ? ? ? ? ? ? ? ?].
    unfold clientConfig; simpl. by destruct mic, mich, ict. }
  rewrite Hidem. unfold call. simpl.
  destruct (ToClient_ (clientConfig c) host (telemetrySettings se) x) as [r' x'].
  simpl. split; [by rewrite insert_insert_eq|].
  unfold calls. simpl. by rewrite !drop_app_length.
Qed.

(** The headers a successful [start] or [startLogs] hands to its client,
    and the config it leaves behind. *)
Lemma start_ok_headers (se se' : signalfxExporter) (host : Host) (w : World)
    (l : positive) (c : Config) :
  config se = addr l → heap w !! l = Some c →
  result (start se host w) = Some (None, se') →
  heap (final (start se host w)) !! l = Some (clientConfig (set_Headers None c)) ∧
  ∃ dp, pushMetricsData se' = Some dp ∧ base_headers (dp_base dp) = headersOf c.
Proof.
  intros Hse Hl. paths Hse Hl.
  all: intros Hres; simplify_eq.
  all: split; [reflexivity|by eexists].
Qed.

Lemma startLogs_ok_headers (se se' : signalfxExporter) (host : Host) (w : World)
    (l : positive) (c : Config) :
  config se = addr l → heap w !! l = Some c →
  result (startLogs se host w) = Some (None, se') →
  heap (final (startLogs se host w)) !! l = Some (clientConfig (set_Headers None c)) ∧
  ∃ ec, pushLogsData se' = Some ec ∧ base_headers (ev_base ec) = headersOf c.
Proof.
  intros Hse Hl. paths Hse Hl.
  all: intros Hres; simplify_eq.
  all: split; [reflexivity|by eexists].
Qed.

Lemma headersOf_after_start (c : Config) :
  headersOf (clientConfig (set_Headers None c)) =
    if decide (AccessToken c ≠ "")
    then <[SFxAccessTokenHeader := AccessToken c]> predefinedHeaders
    else predefinedHeaders.
Proof.
  unfold headersOf.
  by rewrite clientConfig_Headers, clientConfig_AccessToken.
Qed.

(** X7. Custom headers reach only the first client built from a config.
    After a [start] or [startLogs] that returned a nil error, a second
    successful [start] or [startLogs] on any exporter that shares the config
    pointer hands its client the predefined headers and the token header
    only: a custom header that is not one of those is missing from the
    second client's headers although the first client has it. *)
Theorem custom_headers_reach_first_client_only (se1 se1' se2 se2' : signalfxExporter)
    (host : Host) (w : World) (l : positive) (c : Config) :
  config se1 = addr l → config se2 = addr l → heap w !! l = Some c →
  let plain := if decide (AccessToken c ≠ "")
               then <[SFxAccessTokenHeader := AccessToken c]> predefinedHeaders
               else predefinedHeaders in
  (result (start se1 host w) = Some (None, se1') →
   result (startLogs se2 host (final (start se1 host w))) = Some (None, se2') →
   ∃ dp ec,
     pushMetricsData se1' = Some dp ∧ pushLogsData se2' = Some ec ∧
     base_headers (ev_base ec) = plain ∧
     ∀ k v, default ∅ (Headers (cfgHTTPClientSettings c)) !! k = Some v →
            base_headers (dp_base dp) !! k = Some v ∧
            (plain !! k = None → base_headers (ev_base ec) !! k = None)) ∧
  (result (startLogs se1 host w) = Some (None, se1') →
   result (start se2 host (final (startLogs se1 host w))) = Some (None, se2') →
   ∃ ec dp,
     pushLogsData se1' = Some ec ∧ pushMetricsData se2' = Some dp ∧
     base_headers (dp_base dp) = plain ∧
     ∀ k v, default ∅ (Headers (cfgHTTPClientSettings c)) !! k = Some v →
            base_headers (ev_base ec) !! k = Some v ∧
            (plain !! k = None → base_headers (dp_base dp) !! k = None)).
Proof.
  intros Hse1 Hse2 Hl. simpl. split.
  - intros Hfirst Hsecond.
    destruct (start_ok_headers se1 se1' host w l c Hse1 Hl Hfirst)
      as (Hheap & dp & Hdp & Hhd).
    destruct (startLogs_ok_headers se2 se2' host _ l _ Hse2 Hheap Hsecond)
      as (_ & ec & Hec & Hhe).
    rewrite headersOf_after_start in Hhe.
    exists dp, ec. repeat split; try done.
    + rewrite Hhd. unfold headersOf. by rewrite rangeInsert_lookup, H.
    + by rewrite Hhe.
  - intros Hfirst Hsecond.
    destruct (startLogs_ok_headers se1 se1' host w l c Hse1 Hl Hfirst)
      as (Hheap & ec & Hec & Hhe).
    destruct (start_ok_headers se2 se2' host _ l _ Hse2 Hheap Hsecond)
      as (_ & dp & Hdp & Hhd).
    rewrite headersOf_after_start in Hhd.
    exists ec, dp. repeat split; try done.
    + rewrite Hhe. unfold headersOf. by rewrite rangeInsert_lookup, H.
    + by rewrite Hhd.
Qed.

(** Inserting the entries of a list with distinct keys, first to last. *)
Lemma foldl_insert_lookup (kvs : list (string * string))
    (headers : gmap string string) (k : string) :
  NoDup kvs.*1 →
  foldl (λ acc kv, <[kv.1 := kv.2]> acc) headers kvs !! k =
    match (list_to_map kvs : gmap string string) !! k with
    | Some v => Some v
    | None => headers !! k
    end.
Proof.
  revert headers. induction kvs as [|[k0 v0] kvs IH]; intros headers Hnd; simpl.
  - by rewrite lookup_empty.
  - apply NoDup_cons in Hnd as [Hfresh Hnd]. rewrite IH by done.
    destruct (decide (k0 = k)) as [->|Hne].
    + rewrite !lookup_insert_eq.
      by rewrite (not_elem_of_list_to_map_1 _ _ Hfresh).
    + by rewrite !lookup_insert_ne.
Qed.

(** X10. The header map does not depend on the order in which Go ranges
    over the custom headers: inserting the custom entries one after the
    other in any order gives the map that [buildHeaders] computes. *)
Theorem rangeInsert_any_order (custom headers : gmap string string)
    (kvs : list (string * string)) :
  kvs ≡ₚ map_to_list custom →
  foldl (λ acc kv, <[kv.1 := kv.2]> acc) headers kvs =
    rangeInsert (Some custom) headers.
Proof.
  intros Hperm.
  assert (Hnd : NoDup kvs.*1).
  { rewrite Hperm. apply NoDup_fst_map_to_list. }
  assert (Hmap : (list_to_map kvs : gmap string string) = custom).
  { rewrite (list_to_map_proper kvs (map_to_list custom)) by done.
    apply list_to_map_to_list. }
  apply map_eq. intros k.
  by rewrite foldl_insert_lookup, Hmap, rangeInsert_lookup.
Qed.

(** X12. The header map is the custom headers laid over the predefined
    ones: [buildHeaders] returns the left-biased union of the custom headers
    with the token header (when the access token is non-empty) and the three
    predefined headers, so it has an entry under exactly those names and
    under no other. *)
Theorem buildHeaders_is_union (l : positive) (c : Config) (w : World) :
  heap w !! l = Some c →
  let custom : gmap string string := default ∅ (Headers (cfgHTTPClientSettings c)) in
  let base : gmap string string :=
    if decide (AccessToken c ≠ "")
    then <[SFxAccessTokenHeader := AccessToken c]> predefinedHeaders
    else predefinedHeaders in
  ∃ hs,
    result (buildHeaders (addr l) w) = Some hs ∧
    hs = custom ∪ base ∧
    dom hs =
      dom custom ∪
      (if decide (AccessToken c ≠ "")
       then {[ SFxAccessTokenHeader ]} else (∅ : gset string)) ∪
      {[ "User-Agent"; "Content-Type"; "Connection" ]}.
Proof.
  intros Hl. simpl. exists (headersOf c).
  split; [by rewrite (buildHeaders_run l c w Hl)|].
  assert (Hunion : headersOf c =
    default ∅ (Headers (cfgHTTPClientSettings c)) ∪
    (if decide (AccessToken c ≠ "")
     then <[SFxAccessTokenHeader := AccessToken c]> predefinedHeaders
     else predefinedHeaders)).
  { apply map_eq. intros k. unfold headersOf.
    rewrite rangeInsert_lookup, lookup_union.
    by destruct (default ∅ _ !! k), (_ !! k). }
  split; [exact Hunion|].
  rewrite Hunion, dom_union_L.
  assert (Hpre : dom predefinedHeaders =
            ({[ "User-Agent"; "Content-Type"; "Connection" ]} : gset string)).
  { unfold predefinedHeaders. rewrite !dom_insert_L, dom_empty_L.
    by rewrite (right_id_L ∅ (∪)). }
  case_decide.
  - rewrite dom_insert_L, Hpre. by rewrite !(assoc_L (∪)).
  - rewrite Hpre. by rewrite (right_id_L ∅ (∪)).
Qed.

(** X13. Metadata goes to the client that was started. After a [start]
    that returned a nil error, [ConsumeMetadata] through the exporter's
    [pushMetadata] makes exactly one call, [PushMetadata] on the dimension
    client that [start] constructed and started, returns that call's error
    and writes to no config. *)
Theorem ConsumeMetadata_reaches_started_client (se se' : signalfxExporter)
    (host : Host) (w : World) (l : positive) (c : Config)
    (metadata : list MetadataUpdate) (w2 : World) :
  config se = addr l → heap w !! l = Some c →
  result (start se host w) = Some (None, se') →
  let run := ConsumeMetadata {| sme_pushMetadata := pushMetadata se' |} metadata w2 in
  ∃ d,
    EvDimensionClientStart d ∈ calls w (start se host w) ∧
    calls w2 run = [EvPushMetadata d metadata] ∧
    result run = Some (PushMetadata_ d metadata (ext w2)).1 ∧
    heap (final run) = heap w2.
Proof.
  intros Hse Hl Hres. simpl.
  destruct (start_ok_calls se se' host w l c Hse Hl Hres)
    as (o & d & x & tail & Hcalls & _ & _ & _ & Hmeta & _).
  exists d. split.
  { rewrite Hcalls. rewrite !elem_of_app, !elem_of_cons. auto 10. }
  unfold ConsumeMetadata, deref, call. unfold mbind, M_bind, mret, M_ret.
  simpl. rewrite Hmeta. simpl.
  destruct (PushMetadata_ d metadata (ext w2)) as [e x2]. simpl.
  split; [in_calls; reflexivity|]. by split.
Qed.

(** X14. The errors [start] returns. An error of [getOptionsFromConfig] or
    of [ToClient] is returned as it is, and an error of [LoadTLSConfig]
    wrapped in "could not load API TLS config"; in each case [start] stops
    right after the failing call, so no dimension client is constructed, and
    the exporter is returned unchanged. *)
Theorem start_returns_errors (se : signalfxExporter) (host : Host) (w : World)
    (l : positive) (c : Config) :
  config se = addr l → heap w !! l = Some c →
  let run := start se host w in
  let c2 := clientConfig (set_Headers None c) in
  let opts := getOptionsFromConfig_ c (ext w) in
  let client := ToClient_ c2 host (telemetrySettings se) opts.2 in
  let tls := LoadTLSConfig_ (APITLSSettings c2) client.2 in
  (∀ e, opts.1.2 = Some e →
     result run = Some (Some e, se) ∧
     calls w run = [EvGetOptionsFromConfig c]) ∧
  (∀ e, opts.1.2 = None → client.1.2 = Some e →
     result run = Some (Some e, se) ∧
     calls w run = [EvGetOptionsFromConfig c;
                    EvToClient c2 host (telemetrySettings se)]) ∧
  (∀ e, is_Some opts.1.1 → opts.1.2 = None → client.1.2 = None →
     tls.1.2 = Some e →
     result run =
       Some (Some (fmt_Errorf_w "could not load API TLS config: " e), se) ∧
     calls w run = [EvGetOptionsFromConfig c;
                    EvToClient c2 host (telemetrySettings se);
                    EvLoadTLSConfig (APITLSSettings c2)]).
Proof.
  intros Hse Hl. paths Hse Hl.
  all: repeat split; try (in_calls; reflexivity).
  all: try (intros; simplify_eq; done).
  all: try (intros ? [? ?]; intros; simplify_eq; done).
  all: intros ? ? ? ? ?; simplify_eq; in_calls; reflexivity.
Qed.

End Wiring.

(** * Concrete runs of the further properties *)

Section WiringRuns.
Import Fixture.


Lemma constructors_propagate_errors_witness :
  let w := world cfgTeam (noOptions (foreign_error 1)) in
  heap w !! 1%positive = Some cfgTeam ∧
  result (newSignalFxExporter (addr 1) createSettings w) =
    Some (None, Some (foreign_error 1)) ∧
  result (newEventExporter (addr 1) createSettings w) =
    Some (None, Some (fmt_Errorf_w "failed to process config: " (foreign_error 1))).
Proof.
  simpl. split; [reflexivity|].
  destruct (constructors_propagate_errors 1 cfgTeam createSettings
              (world cfgTeam (noOptions (foreign_error 1))) eq_refl)
    as (_ & Herr & _).
  destruct (Herr (foreign_error 1) eq_refl) as (Hm & _ & He).
  by split.
Defined.

Lemma push_before_start_panics_witness :
  let w := world cfgTeam (accepting 0) in
  result (newSignalFxExporter (addr 1) createSettings w) = Some (Some fresh, None) ∧
  pushMetrics fresh tt ["cpu"] w = Panicked w ∧
  pushLogs fresh tt ["started"] w = Panicked w.
Proof.
  assert (Hnew : result (newSignalFxExporter (addr 1) createSettings
                           (world cfgTeam (accepting 0))) = Some (Some fresh, None))
    by reflexivity.
  simpl. split; [exact Hnew|].
  destruct (push_before_start_panics (addr 1) createSettings
              (world cfgTeam (accepting 0)) fresh None (or_introl Hnew)
              tt ["cpu"] ["started"] [] (world cfgTeam (accepting 0)))
    as (Hm & Hl & _).
  by split.
Defined.

Lemma createClient_defaults_witness :
  let w := world cfgTeam (accepting 0) in
  (config fresh = addr 1 ∧ heap w !! 1%positive = Some cfgTeam) ∧
  ∃ c', calls w (createClient fresh tt w) = [EvToClient c' tt tt] ∧
        TLSSetting (cfgHTTPClientSettings c') = "ingest-tls" ∧
        MaxIdleConns (cfgHTTPClientSettings c') = Some AddrOf_MaxConnections ∧
        IdleConnTimeout (cfgHTTPClientSettings c') = Some 30000000000%Z.
Proof.
  simpl. split; [by split|].
  destruct (createClient_defaults fresh tt (world cfgTeam (accepting 0)) 1 cfgTeam
              eq_refl eq_refl)
    as (c' & _ & Hcalls & _ & Htls & Hmic & _ & Hict & _).
  exists c'. split; [exact Hcalls|]. split; [exact Htls|].
  split; [exact Hmic|exact Hict].
Defined.

Lemma createClient_twice_witness :
  let w := world cfgTeam (accepting 0) in
  let first := createClient fresh tt w in
  (config fresh = addr 1 ∧ heap w !! 1%positive = Some cfgTeam) ∧
  heap (final (createClient fresh tt (final first))) = heap (final first).
Proof.
  simpl. split; [by split|].
  destruct (createClient_twice fresh tt (world cfgTeam (accepting 0)) 1 cfgTeam
              eq_refl eq_refl) as (Hheap & _).
  exact Hheap.
Defined.

Lemma startLogs_wires_event_client_witness :
  let w := world cfgTeam (accepting 0) in
  (config freshEvents = addr 1 ∧ heap w !! 1%positive = Some cfgTeam) ∧
  ∃ se' ec, result (startLogs freshEvents tt w) = Some (None, se') ∧
            pushLogsData se' = Some ec ∧
            base_headers (ev_base ec) = headersOf cfgTeam.
Proof.
  simpl. split; [by split|].
  destruct (startLogs_wires_event_client freshEvents tt
              (world cfgTeam (accepting 0)) 1 cfgTeam eq_refl eq_refl)
    as (_ & _ & _ & Hok).
  destruct (Hok options eq_refl eq_refl) as (se' & ec & Hres & Hec & Hhd & _).
  exists se', ec. split; [exact Hres|]. split; [exact Hec|exact Hhd].
Defined.

Lemma custom_headers_reach_first_client_only_witness :
  let w := world cfgTeam (accepting 0) in
  let se1' := started fresh (wiredDPClient teamHeaders) 7 (Some 7) in
  let se2' := startedLogs freshEvents (wiredEventClient plainHeaders) in
  (result (start fresh tt w) = Some (None, se1') ∧
   result (startLogs freshEvents tt (final (start fresh tt w))) = Some (None, se2')) ∧
  ∃ dp ec, pushMetricsData se1' = Some dp ∧ pushLogsData se2' = Some ec ∧
           base_headers (dp_base dp) !! "X-Team" = Some "obs" ∧
           base_headers (ev_base ec) !! "X-Team" = None.
Proof.
  assert (H1 : result (start fresh tt (world cfgTeam (accepting 0))) =
               Some (None, started fresh (wiredDPClient teamHeaders) 7 (Some 7)))
    by (vm_compute; reflexivity).
  assert (H2 : result (startLogs freshEvents tt
                         (final (start fresh tt (world cfgTeam (accepting 0))))) =
               Some (None, startedLogs freshEvents (wiredEventClient plainHeaders)))
    by (vm_compute; reflexivity).
  simpl. split; [by split|].
  destruct (custom_headers_reach_first_client_only fresh
              (started fresh (wiredDPClient teamHeaders) 7 (Some 7)) freshEvents
              (startedLogs freshEvents (wiredEventClient plainHeaders)) tt
              (world cfgTeam (accepting 0)) 1 cfgTeam eq_refl eq_refl eq_refl)
    as (Hfirst & _).
  destruct (Hfirst H1 H2) as (dp & ec & Hdp & Hec & _ & Hcustom).
  destruct (Hcustom "X-Team" "obs" eq_refl) as (Hhas & Hnot).
  exists dp, ec. split; [exact Hdp|]. split; [exact Hec|].
  split; [exact Hhas|]. apply Hnot. reflexivity.
Defined.

Lemma start_config_effects_witness :
  let w := world cfgTeam (noClient (foreign_error 2)) in
  (config fresh = addr 1 ∧ heap w !! 1%positive = Some cfgTeam) ∧
  result (start fresh tt w) = Some (Some (foreign_error 2), fresh) ∧
  ∃ c', heap (final (start fresh tt w)) !! 1%positive = Some c' ∧
        Headers (cfgHTTPClientSettings c') = None.
Proof.
  simpl. split; [by split|]. split; [reflexivity|].
  destruct (start_config_effects fresh tt
              (world cfgTeam (noClient (foreign_error 2))) 1 cfgTeam eq_refl eq_refl)
    as (Hheap & _).
  destruct (Hheap eq_refl) as (c' & Hc' & Hnil & _).
  exists c'. split; [exact Hc'|exact Hnil].
Defined.

Lemma start_wires_data_point_client_witness :
  let w := world cfgTeam (accepting 0) in
  let se' := started fresh (wiredDPClient teamHeaders) 7 (Some 7) in
  (config fresh = addr 1 ∧ heap w !! 1%positive = Some cfgTeam ∧
   result (start fresh tt w) = Some (None, se')) ∧
  ∃ dp, pushMetricsData se' = Some dp ∧
        base_headers (dp_base dp) !! "X-Team" = Some "obs".
Proof.
  assert (H1 : result (start fresh tt (world cfgTeam (accepting 0))) =
               Some (None, started fresh (wiredDPClient teamHeaders) 7 (Some 7)))
    by (vm_compute; reflexivity).
  simpl. split; [by repeat split|].
  destruct (start_wires_data_point_client fresh
              (started fresh (wiredDPClient teamHeaders) 7 (Some 7)) tt
              (world cfgTeam (accepting 0)) 1 cfgTeam eq_refl eq_refl H1)
    as (dp & o & Hdp & _ & _ & Hcustom & _).
  exists dp. split; [exact Hdp|]. apply Hcustom. reflexivity.
Defined.

Lemma rangeInsert_any_order_witness :
  let custom : gmap string string := {[ "A" := "1"; "B" := "2" ]} in
  reverse (map_to_list custom) ≡ₚ map_to_list custom ∧
  foldl (λ acc kv, <[kv.1 := kv.2]> acc) predefinedHeaders
        (reverse (map_to_list custom)) =
    rangeInsert (Some custom) predefinedHeaders.
Proof.
  simpl. split; [apply reverse_Permutation|].
  apply rangeInsert_any_order. apply reverse_Permutation.
Defined.

Lemma start_without_converter_witness :
  let w := world cfgTeam (accepting 0) in
  converter freshEvents = None ∧
  ∀ se', result (start freshEvents tt w) ≠ Some (None, se').
Proof.
  simpl. split; [reflexivity|].
  destruct (start_without_converter freshEvents tt (world cfgTeam (accepting 0))
              (or_introl eq_refl)) as (Hnever & _).
  exact Hnever.
Defined.

Lemma buildHeaders_is_union_witness :
  let w := world cfgTeam (accepting 0) in
  heap w !! 1%positive = Some cfgTeam ∧
  ∃ hs, result (buildHeaders (addr 1) w) = Some hs ∧
        dom hs = {[ "X-Team" ]} ∪ {[ "X-Sf-Token" ]} ∪
                 {[ "User-Agent"; "Content-Type"; "Connection" ]}.
Proof.
  simpl. split; [reflexivity|].
  destruct (buildHeaders_is_union 1 cfgTeam (world cfgTeam (accepting 0)) eq_refl)
    as (hs & Hres & _ & Hdom).
  exists hs. split; [exact Hres|].
  etransitivity; [exact Hdom|].
  f_equal; f_equal; apply dom_singleton_L.
Defined.

Lemma ConsumeMetadata_reaches_started_client_witness :
  let w := world cfgTeam (accepting 0) in
  let se' := started fresh (wiredDPClient teamHeaders) 7 (Some 7) in
  (config fresh = addr 1 ∧ heap w !! 1%positive = Some cfgTeam ∧
   result (start fresh tt w) = Some (None, se')) ∧
  ∃ d, calls w (ConsumeMetadata {| sme_pushMetadata := pushMetadata se' |}
                  ["host.name"] w) = [EvPushMetadata d ["host.name"]].
Proof.
  assert (H1 : result (start fresh tt (world cfgTeam (accepting 0))) =
               Some (None, started fresh (wiredDPClient teamHeaders) 7 (Some 7)))
    by (vm_compute; reflexivity).
  simpl. split; [by repeat split|].
  destruct (ConsumeMetadata_reaches_started_client fresh
              (started fresh (wiredDPClient teamHeaders) 7 (Some 7)) tt
              (world cfgTeam (accepting 0)) 1 cfgTeam ["host.name"]
              (world cfgTeam (accepting 0)) eq_refl eq_refl H1)
    as (d & _ & Hcalls & _).
  exists d. exact Hcalls.
Defined.

Lemma start_returns_errors_witness :
  let w := world cfgTeam (noTLS (foreign_error 3)) in
  (config fresh = addr 1 ∧ heap w !! 1%positive = Some cfgTeam) ∧
  result (start fresh tt w) =
    Some (Some (fmt_Errorf_w "could not load API TLS config: " (foreign_error 3)),
          fresh).
Proof.
  simpl. split; [by split|].
  destruct (start_returns_errors fresh tt (world cfgTeam (noTLS (foreign_error 3)))
              1 cfgTeam eq_refl eq_refl) as (_ & _ & Htls).
  destruct (Htls (foreign_error 3)) as (Hres & _);
    first [by eexists | reflexivity | exact Hres].
Defined.

End WiringRuns.
